(** * BNB4 model converter: a shallow embedding of [gui.py]

    The program is a Tk front end ([ConverterGUI]) that spawns one
    background process ([download_worker]) and relays the messages the
    worker sends over a pipe.  This development embeds

    - the Python string and [pathlib] operations the program applies to
      its inputs (module [Py]),
    - the worker, as a state-and-exception monad over the pipe, the
      cancellation flag and the calls into the model library
      (module [Worker]),
    - the supervisor: the Tk variables and widgets the methods of
      [ConverterGUI] read and write (module [Gui]),
    - the settings file ([load_settings] / [save_settings], module
      [Settings]),

    states the properties of the specification over them (module [Spec],
    with the concrete runs of module [Scenario]), and proves them. *)

From Stdlib Require Import ZArith Ascii String List Bool Lia Sorted.
From stdpp Require Import base option gmap strings list.

Open Scope string_scope.
Open Scope list_scope.

(** ** Python strings and paths *)

Module Py.

(** A Python [str] is modelled as the string of its UTF-8 bytes.
    Equality, concatenation, [startswith] and splitting on an ASCII
    separator agree with the code-point semantics on such strings;
    [strip] has to recognise the encodings of the white-space code
    points. *)

Definition byte (a : ascii) : nat := nat_of_ascii a.

Definition chr (n : nat) : string := String (ascii_of_nat n) "".

(** The line feed, written "\n" in the source. *)
Definition nl : string := chr 10.

(** One-byte white space: U+0009..U+000D, U+001C..U+001F, U+0020. *)
Definition ws1 (b : nat) : bool :=
  (((9 <=? b) && (b <=? 13)) || ((28 <=? b) && (b <=? 32)))%nat.

(** Two-byte white space: U+0085 (C2 85) and U+00A0 (C2 A0). *)
Definition ws2 (b1 b2 : nat) : bool :=
  ((b1 =? 194) && ((b2 =? 133) || (b2 =? 160)))%nat.

(** Three-byte white space: U+1680 (E1 9A 80), U+2000..U+200A
    (E2 80 80..8A), U+2028, U+2029 (E2 80 A8, A9), U+202F (E2 80 AF),
    U+205F (E2 81 9F), U+3000 (E3 80 80). *)
Definition ws3 (b1 b2 b3 : nat) : bool :=
  (((b1 =? 225) && (b2 =? 154) && (b3 =? 128))
   || ((b1 =? 226) && (b2 =? 128)
         && (((128 <=? b3) && (b3 <=? 138)) || (b3 =? 168) || (b3 =? 169)
             || (b3 =? 175)))
   || ((b1 =? 226) && (b2 =? 129) && (b3 =? 159))
   || ((b1 =? 227) && (b2 =? 128) && (b3 =? 128)))%nat.

(** [strip_front fwd s] drops the white-space code points at the front
    of [s].  With [fwd = false] the bytes of [s] are read in reverse
    order (the string is a reversed one), so the bytes of a code point
    arrive last byte first. *)
Fixpoint strip_front (fwd : bool) (s : string) : string :=
  match s with
  | "" => ""
  | String a s1 =>
      if ws1 (byte a) then strip_front fwd s1
      else
        match s1 with
        | "" => s
        | String a2 s2 =>
            if (if fwd then ws2 (byte a) (byte a2) else ws2 (byte a2) (byte a))
            then strip_front fwd s2
            else
              match s2 with
              | "" => s
              | String a3 s3 =>
                  if (if fwd then ws3 (byte a) (byte a2) (byte a3)
                      else ws3 (byte a3) (byte a2) (byte a))
                  then strip_front fwd s3
                  else s
              end
        end
  end.

Definition lstrip (s : string) : string := strip_front true s.

Definition rstrip (s : string) : string :=
  String.rev (strip_front false (String.rev s)).

(** [s.strip()] *)
Definition strip (s : string) : string := rstrip (lstrip s).

(** [s.rstrip(c)] for a one-character argument [c]. *)
Fixpoint rstrip_char (c : ascii) (s : string) : string :=
  match s with
  | "" => ""
  | String a s' =>
      let r := rstrip_char c s' in
      if Ascii.eqb a c && String.eqb r "" then "" else String a r
  end.

(** [s.split(c)] for a one-character separator [c]: never empty. *)
Fixpoint split (c : ascii) (s : string) : list string :=
  match s with
  | "" => [""]
  | String a s' =>
      if Ascii.eqb a c then "" :: split c s'
      else match split c s' with
           | h :: t => String a h :: t
           | [] => [String a ""]
           end
  end.

(** [c.join(l)] *)
Fixpoint join (c : string) (l : list string) : string :=
  match l with
  | [] => ""
  | [x] => x
  | x :: l' => x +:+ c +:+ join c l'
  end.

(** [s.startswith(p)] *)
Definition startswith (p s : string) : bool := String.prefix p s.

(** [s.endswith(p)] *)
Definition endswith (p s : string) : bool :=
  String.prefix (String.rev p) (String.rev s).

(** Truth value of a [str]: [not s] holds of the empty string only. *)
Definition truthy (s : string) : bool := negb (String.eqb s "").

(** [x in l] for a tuple or list of [str]. *)
Definition mem (x : string) (l : list string) : bool :=
  existsb (String.eqb x) l.

Definition slash : ascii := "/"%char.

(** *** [pathlib], POSIX flavour

    A path is kept as [pathlib] keeps it: a root and the list of its
    components, empty components and ["."] dropped. *)

Record path := { root : string; parts : list string }.

Definition is_part (x : string) : bool := truthy x && negb (String.eqb x ".").

Definition path_parts (s : string) : list string :=
  List.filter is_part (split slash s).

(** [posixpath.splitroot]: exactly two leading slashes are kept, one or
    three and more collapse to one. *)
Definition splitroot (s : string) : string :=
  match s with
  | String a (String b (String c _)) =>
      if Ascii.eqb a slash then
        if Ascii.eqb b slash && negb (Ascii.eqb c slash) then "//" else "/"
      else ""
  | String a (String b "") =>
      if Ascii.eqb a slash then if Ascii.eqb b slash then "//" else "/" else ""
  | String a "" => if Ascii.eqb a slash then "/" else ""
  | "" => ""
  end.

(** [Path(s)] *)
Definition Path (s : string) : path :=
  {| root := splitroot s; parts := path_parts s |}.

(** [p / name]: an absolute [name] replaces [p]. *)
Definition truediv (p : path) (name : string) : path :=
  if startswith "/" name then Path name
  else {| root := root p; parts := parts p ++ path_parts name |}.

(** [str(p)] *)
Definition path_str (p : path) : string :=
  match root p, parts p with
  | "", [] => "."
  | r, ps => r +:+ join "/" ps
  end.

(** [p.parent] and [p.name] *)
Definition parent (p : path) : path :=
  {| root := root p; parts := removelast (parts p) |}.

Definition name (p : path) : string := List.last (parts p) "".

End Py.

(** ** The worker process: [download_worker]

    A run is what the function does from its first line until it
    returns or an exception leaves it.  Two things are outside the
    model: a worker that the supervisor terminates ([proc.terminate()]
    in [stop] and [on_close]) simply stops wherever it is, and a pipe
    whose other end is gone makes [conn.send] fail; here [conn.send]
    always appends to the channel. *)

Module Worker.

(** The job configuration.  [ConverterGUI.start] is the only place that
    builds the [config] dict, always with these seven keys, so the dict
    is a record; [cfg.get(k, default)] is the field. *)
Record cfg := {
  TARGET_MODEL_URL : string;
  OUTPUT_PATH : string;
  MODEL_TYPE : string;
  SAFE_SERIALIZATION : bool;
  MAX_SEQ_LENGTH : Z;
  FORCE_CPU : bool;
  DEVICE : string
}.

(** The tuples sent over the pipe: [('log', msg)],
    [('progress', pct, stage)], [('status', status)], [('done', None)]. *)
Inductive msg :=
| Log (text : string)
| Progress (pct : Z) (stage : string)
| Status (text : string)
| Done.

Inductive dtype := bfloat16 | float16.

(** [BitsAndBytesConfig(...)] *)
Record bnb_config := {
  load_in_4bit : bool;
  bnb_4bit_use_double_quant : bool;
  bnb_4bit_quant_type : string;
  bnb_4bit_compute_dtype : dtype
}.

(** The calls the worker makes outside its own code, with the arguments
    it passes. *)
Inductive call :=
| ImportTransformers
| Mkdir (p : Py.path) (parents : bool)
| NewBnbConfig (c : bnb_config)
| LoadImageTextToText (url : string) (quantization_config : option bnb_config)
    (device_map : string) (dt : option dtype)
| LoadCausalLM (url : string) (quantization_config : option bnb_config)
    (device_map : string) (dt : option dtype)
| LoadTokenizer (url : string)
| LoadImageProcessor (url : string)
| EmptyCache
| GcCollect
| SaveModel (p : Py.path) (safe_serialization : bool)
| SaveTokenizer (p : Py.path)
| SaveImageProcessor (p : Py.path)
| ConnClose.

(** The exceptions the handlers of the worker tell apart:
    [KeyboardInterrupt], and the subclasses of [Exception], with
    [str(e)].  No call of the model raises another [BaseException]
    ([SystemExit], [GeneratorExit]). *)
Inductive exn :=
| KeyboardInterrupt
| Exception (text : string).

Inductive outcome :=
| Returns
| Raises (e : exn).

(** What the worker does not decide: the cancellation flag, written by
    the supervisor process, as the value the [n]-th call of
    [stop_evt.is_set()] reads; the hardware; how each outside call ends,
    the import of [transformers] at the head of the function among them;
    the text of [traceback.format_exc()]. *)
Record world := {
  stop_at : nat -> bool;
  cuda_is_available : bool;
  cuda_is_bf16_supported : bool;
  import_transformers : outcome;
  mkdir_out : outcome;
  new_bnb_config : outcome;
  load_image_text_to_text : outcome;
  load_causal_lm : outcome;
  load_tokenizer : outcome;
  load_image_processor : outcome;
  empty_cache : outcome;
  mkdir_final : outcome;
  save_model : outcome;
  save_tokenizer : outcome;
  save_image_processor : outcome;
  format_exc : string
}.

(** The state of a run: what was sent on the pipe and which calls were
    made, both oldest first, and how often the flag was read. *)
Record wstate := {
  chan : list msg;
  calls : list call;
  checks : nat
}.

Definition start_state : wstate := {| chan := []; calls := []; checks := 0 |}.

(** The state in which the outer [try] is entered: nothing sent yet,
    nothing read, the import done. *)
Definition at_try : wstate :=
  {| chan := []; calls := [ImportTransformers]; checks := 0 |}.

Inductive result (A : Type) :=
| Ok (a : A)
| Raise (e : exn).
Arguments Ok {A} a.
Arguments Raise {A} e.

Definition W (A : Type) : Type := wstate -> result A * wstate.

Definition ret {A} (a : A) : W A := fun s => (Ok a, s).

Definition bind {A B} (m : W A) (k : A -> W B) : W B :=
  fun s =>
    match m s with
    | (Ok a, s') => k a s'
    | (Raise e, s') => (Raise e, s')
    end.

Definition raise {A} (e : exn) : W A := fun s => (Raise e, s).

Declare Scope worker_scope.
Delimit Scope worker_scope with worker.
Notation "x <- m ;; k" := (bind m (fun x => k))
  (at level 100, m at next level, right associativity) : worker_scope.
Notation "m ;; k" := (bind m (fun _ => k))
  (at level 100, right associativity) : worker_scope.
Open Scope worker_scope.

(** [try: body / except KeyboardInterrupt: on_kbd / except Exception as e:
    on_exc e]: an exception raised by a handler is not caught again. *)
Definition try_except {A} (body : W A) (on_kbd : W A) (on_exc : string -> W A)
  : W A :=
  fun s =>
    match body s with
    | (Ok a, s') => (Ok a, s')
    | (Raise KeyboardInterrupt, s') => on_kbd s'
    | (Raise (Exception t), s') => on_exc t s'
    end.

(** [try: body / except Exception: handler] *)
Definition try_except_Exception {A} (body : W A) (handler : W A) : W A :=
  fun s =>
    match body s with
    | (Raise (Exception _), s') => handler s'
    | r => r
    end.

(** [try: body / except: handler], the bare handler, which also catches
    [KeyboardInterrupt]. *)
Definition try_except_all {A} (body : W A) (handler : W A) : W A :=
  fun s =>
    match body s with
    | (Raise _, s') => handler s'
    | r => r
    end.

(** [try: body / finally: fin]: [fin] always runs; when it returns, the
    outcome of [body] stands. *)
Definition try_finally {A} (body : W A) (fin : W unit) : W A :=
  fun s =>
    match body s with
    | (r, s') =>
        match fin s' with
        | (Ok _, s'') => (r, s'')
        | (Raise e, s'') => (Raise e, s'')
        end
    end.

(** [l[-1]] *)
Definition index_last (l : list string) : W string :=
  match last l with
  | Some x => ret x
  | None => raise (Exception "list index out of range")
  end.

Section Run.

Variable w : world.

(** [stop_evt.is_set()] *)
Definition is_set : W bool :=
  fun s =>
    (Ok (stop_at w (checks s)),
     {| chan := chan s; calls := calls s; checks := S (checks s) |}).

(** [conn.send(m)] *)
Definition conn_send (m : msg) : W unit :=
  fun s =>
    (Ok tt, {| chan := chan s ++ [m]; calls := calls s; checks := checks s |}).

(** A call outside the worker: it is made, then returns or raises. *)
Definition ext (c : call) (o : outcome) : W unit :=
  fun s =>
    let s' := {| chan := chan s; calls := calls s ++ [c]; checks := checks s |} in
    match o with
    | Returns => (Ok tt, s')
    | Raises e => (Raise e, s')
    end.

Definition send_log (m : string) : W unit :=
  b <- is_set ;;
  if b then raise KeyboardInterrupt else conn_send (Log m).

Definition send_progress (pct : Z) (stage : string) : W unit :=
  b <- is_set ;;
  if b then raise KeyboardInterrupt else conn_send (Progress pct stage).

Definition send_status (status : string) : W unit :=
  b <- is_set ;;
  if b then raise KeyboardInterrupt else conn_send (Status status).

(** The texts of the two handlers and of the device branches. *)
Definition cancelled_text : string := "⏹️ Операция прервана пользователем".

Definition error_text (e : string) : string :=
  "❌ Ошибка: " +:+ e +:+ Py.nl +:+ format_exc w.

(** [url.rstrip('/').split('/')[-1]] *)
Definition repo_segments (url : string) : list string :=
  Py.split Py.slash (Py.rstrip_char Py.slash url).

(** Lines 59-71: the device placement directive. *)
Definition choose_device (c : cfg) : W string :=
  if FORCE_CPU c then
    send_log "🖥️ Принудительное использование CPU" ;; ret "cpu"
  else if String.eqb (DEVICE c) "cpu" then
    send_log "🖥️ Использование CPU по настройкам" ;; ret "cpu"
  else if String.eqb (DEVICE c) "cuda" then
    send_log "🎮 Принудительное использование GPU" ;; ret "cuda"
  else
    send_log "🔄 Автоматический выбор устройства" ;; ret "auto".

(** Lines 74-82. *)
Definition make_bnb_config (device_map : string) : bnb_config :=
  {| load_in_4bit := true;
     bnb_4bit_use_double_quant := true;
     bnb_4bit_quant_type := "nf4";
     bnb_4bit_compute_dtype :=
       if cuda_is_available w && cuda_is_bf16_supported w
          && negb (String.eqb device_map "cpu")
       then bfloat16 else float16 |}.

Definition quantization_for (device_map : string) (b : bnb_config)
  : option bnb_config :=
  if negb (String.eqb device_map "cpu") then Some b else None.

Definition dtype_for (device_map : string) : option dtype :=
  if String.eqb device_map "cpu" then Some float16 else None.

(** Lines 88-106: the vision loader first, the generic loader on any
    [Exception]; a text model raises [ValueError] to get there. *)
Definition load_model (c : cfg) (device_map : string) (b : bnb_config) : W unit :=
  try_except_Exception
    (if String.eqb (MODEL_TYPE c) "vision" then
       ext (LoadImageTextToText (TARGET_MODEL_URL c)
              (quantization_for device_map b) device_map (dtype_for device_map))
           (load_image_text_to_text w)
     else raise (Exception ""))
    (ext (LoadCausalLM (TARGET_MODEL_URL c)
            (quantization_for device_map b) device_map (dtype_for device_map))
         (load_causal_lm w)).

(** Lines 113-124: [true] when an image processor was loaded, [false]
    for [None]. *)
Definition load_processor (c : cfg) : W bool :=
  if String.eqb (MODEL_TYPE c) "vision" then
    try_except_all
      (send_status "Загрузка процессора изображений" ;;
       send_progress 55 "" ;;
       ext (LoadImageProcessor (TARGET_MODEL_URL c)) (load_image_processor w) ;;
       ret true)
      (send_log "ℹ️ Процессор изображений не найден (возможно, текстовая модель)" ;;
       ret false)
  else ret false.

(** Lines 50-146: the body of the outer [try]. *)
Definition body (c : cfg) : W unit :=
  let url := TARGET_MODEL_URL c in
  repo <- index_last (repo_segments url) ;;
  let out_dir := Py.Path (OUTPUT_PATH c) in
  ext (Mkdir out_dir true) (mkdir_out w) ;;
  send_log ("▶️ Начало конвертации: " +:+ url) ;;
  send_status "Инициализация" ;;
  send_progress 0 "" ;;
  device_map <- choose_device c ;;
  let bnb := make_bnb_config device_map in
  ext (NewBnbConfig bnb) (new_bnb_config w) ;;
  send_status "Загрузка модели" ;;
  send_progress 15 "" ;;
  load_model c device_map bnb ;;
  send_status "Загрузка токенизатора" ;;
  send_progress 40 "" ;;
  ext (LoadTokenizer url) (load_tokenizer w) ;;
  image_processor <- load_processor c ;;
  send_status "Очистка памяти" ;;
  send_progress 70 "" ;;
  (if cuda_is_available w && negb (String.eqb device_map "cpu")
   then ext EmptyCache (empty_cache w) else ret tt) ;;
  ext GcCollect Returns ;;
  let final_path := Py.truediv out_dir (repo +:+ "-bnb4") in
  ext (Mkdir final_path false) (mkdir_final w) ;;
  send_status "Сохранение модели" ;;
  send_progress 85 "" ;;
  ext (SaveModel final_path (SAFE_SERIALIZATION c)) (save_model w) ;;
  ext (SaveTokenizer final_path) (save_tokenizer w) ;;
  (if image_processor : bool
   then ext (SaveImageProcessor final_path) (save_image_processor w)
   else ret tt) ;;
  send_log ("✅ Модель сохранена: " +:+ Py.path_str final_path) ;;
  send_status "Завершено успешно" ;;
  send_progress 100 "".

(** Lines 49-151: the outer [try] with its two handlers. *)
Definition attempt (c : cfg) : W unit :=
  try_except (body c)
    (send_log cancelled_text)
    (fun e => send_log (error_text e)).

(** Lines 49-154: the [finally] clause around them. *)
Definition guarded (c : cfg) : W unit :=
  try_finally (attempt c) (conn_send Done ;; ext ConnClose Returns).

(** Lines 21-154.  The imports of lines 23-27 run first, outside the
    [try]; the standard modules, the warning filters and the logging
    set-up of lines 23-32 do not raise, the import of [transformers]
    may. *)
Definition download_worker (c : cfg) : W unit :=
  ext ImportTransformers (import_transformers w) ;;
  guarded c.

(** The run of a worker from its start: how it ended, and what it sent. *)
Definition run (c : cfg) : result unit * wstate := download_worker c start_state.

Definition sent (c : cfg) : list msg := chan (snd (run c)).

Definition called (c : cfg) : list call := calls (snd (run c)).

(** The outcome of the body alone, before the handlers. *)
Definition body_result (c : cfg) : result unit := fst (body c at_try).

End Run.

End Worker.

(** ** The supervisor: [ConverterGUI] *)

Module Gui.

(** *** The model catalog ([_define_models]) *)

Record info := { url : string; type : string; params : string; desc : string }.

(** [self.model_groups]: a dict of dicts, kept in insertion order. *)
Definition model_groups : list (string * list (string * info)) :=
  [ ("🖼️ Vision-Language модели",
     [ ("NuMarkdown-8B-Thinking",
        {| url := "numind/NuMarkdown-8B-Thinking"; type := "vision"; params := "8B";
           desc := "OCR-модель с reasoning токенами для конвертации документов" |});
       ("Qwen2.5-VL-7B-Instruct",
        {| url := "Qwen/Qwen2.5-VL-7B-Instruct"; type := "vision"; params := "7B";
           desc := "Многомодальная модель от Alibaba" |});
       ("MiniCPM-V-4_5",
        {| url := "openbmb/MiniCPM-V-4_5"; type := "vision"; params := "8B";
           desc := "Высокопроизводительная VL-модель" |});
       ("GLM-4V-9B",
        {| url := "THUDM/glm-4v-9b"; type := "vision"; params := "9B";
           desc := "Визуально-языковая модель THUDM" |});
       ("InternVL2-8B",
        {| url := "OpenGVLab/InternVL2-8B"; type := "vision"; params := "8B";
           desc := "Продвинутая VL-модель OpenGVLab" |}) ]);
    ("🌐 Модели перевода",
     [ ("Hunyuan-MT-7B",
        {| url := "tencent/Hunyuan-MT-7B"; type := "text"; params := "7B";
           desc := "Переводчик Tencent на 33 языка" |});
       ("Hunyuan-MT-Chimera-7B",
        {| url := "tencent/Hunyuan-MT-Chimera-7B"; type := "text"; params := "7B";
           desc := "Ансамблевая модель перевода" |});
       ("NLLB-200-Distilled-600M",
        {| url := "facebook/nllb-200-distilled-600M"; type := "text"; params := "600M";
           desc := "Многоязычный переводчик Meta" |});
       ("M2M100-12B",
        {| url := "facebook/m2m100_12B"; type := "text"; params := "12B";
           desc := "Переводчик на 100+ языков" |}) ]);
    ("🤖 LLM модели",
     [ ("Qwen2.5-7B-Instruct",
        {| url := "Qwen/Qwen2.5-7B-Instruct"; type := "text"; params := "7B";
           desc := "Инструкционная модель Qwen" |});
       ("Qwen2.5-14B-Instruct",
        {| url := "Qwen/Qwen2.5-14B-Instruct"; type := "text"; params := "14B";
           desc := "Qwen 14B для сложных задач" |});
       ("Qwen2.5-32B-Instruct",
        {| url := "Qwen/Qwen2.5-32B-Instruct"; type := "text"; params := "32B";
           desc := "Топовая Qwen для потребительских GPU" |});
       ("Mistral-7B-Instruct-v0.3",
        {| url := "mistralai/Mistral-7B-Instruct-v0.3"; type := "text"; params := "7B";
           desc := "Популярная модель Mistral AI" |});
       ("Llama-3.1-8B-Instruct",
        {| url := "meta-llama/Llama-3.1-8B-Instruct"; type := "text"; params := "8B";
           desc := "Инструкционная модель Meta" |}) ]);
    ("⚙️ Пользовательская",
     [ ("Своя модель",
        {| url := ""; type := "vision"; params := "?";
           desc := "Введите URL модели вручную" |}) ]) ].

(** [populate_model_cb]: the entries of the model combobox. *)
Definition combobox_values : list string :=
  flat_map
    (fun '(group_name, models) =>
       ("--- " +:+ group_name +:+ " ---")
         :: List.map (fun '(model_name, _) => "  " +:+ model_name) models)
    model_groups.

(** [d[k]] for [k in d], on a dict in insertion order. *)
Fixpoint dict_get {A} (k : string) (d : list (string * A)) : option A :=
  match d with
  | [] => None
  | (k', v) :: d' => if String.eqb k k' then Some v else dict_get k d'
  end.

(** The loop of [get_model_info]: the first group that has the name. *)
Fixpoint find_model (model_name : string)
    (groups : list (string * list (string * info))) : option info :=
  match groups with
  | [] => None
  | (_, group_models) :: rest =>
      match dict_get model_name group_models with
      | Some i => Some i
      | None => find_model model_name rest
      end
  end.

(** *** The Tk state *)

Inductive state := normal | disabled | readonly.

(** What the supervisor does to the outside, oldest first: message
    boxes, the worker processes it starts and terminates, and lines
    printed to [sys.stdout]. *)
Inductive effect :=
| showerror (title message : string)
| showinfo (title message : string)
| askyesno (title message : string)
| Spawn (config : Worker.cfg)
| Terminate
| print (line : string).

(** The Tk variables, the widget options the methods configure, and the
    multiprocessing handles of [self]. *)
Record gui := {
  model_var : string;
  url_var : string;
  ctx_var : Z;
  quant_var : string;
  device_var : string;
  out_var : string;
  safe_ser_var : bool;
  url_entry : state;
  model_info : string;
  progress : Z;
  status_text : string;
  status_fg : string;
  start_btn : state;
  stop_btn : state;
  log : string;
  stop_evt : bool;
  proc : option Worker.cfg;
  effects : list effect
}.

Definition set_model_var (v : string) (g : gui) : gui :=
  {| model_var := v; url_var := url_var g; ctx_var := ctx_var g;
     quant_var := quant_var g; device_var := device_var g;
     out_var := out_var g; safe_ser_var := safe_ser_var g;
     url_entry := url_entry g; model_info := model_info g;
     progress := progress g; status_text := status_text g;
     status_fg := status_fg g; start_btn := start_btn g;
     stop_btn := stop_btn g; log := log g; stop_evt := stop_evt g;
     proc := proc g; effects := effects g |}.

Definition set_url_var (v : string) (g : gui) : gui :=
  {| model_var := model_var g; url_var := v; ctx_var := ctx_var g;
     quant_var := quant_var g; device_var := device_var g;
     out_var := out_var g; safe_ser_var := safe_ser_var g;
     url_entry := url_entry g; model_info := model_info g;
     progress := progress g; status_text := status_text g;
     status_fg := status_fg g; start_btn := start_btn g;
     stop_btn := stop_btn g; log := log g; stop_evt := stop_evt g;
     proc := proc g; effects := effects g |}.

Definition set_ctx_var (v : Z) (g : gui) : gui :=
  {| model_var := model_var g; url_var := url_var g; ctx_var := v;
     quant_var := quant_var g; device_var := device_var g;
     out_var := out_var g; safe_ser_var := safe_ser_var g;
     url_entry := url_entry g; model_info := model_info g;
     progress := progress g; status_text := status_text g;
     status_fg := status_fg g; start_btn := start_btn g;
     stop_btn := stop_btn g; log := log g; stop_evt := stop_evt g;
     proc := proc g; effects := effects g |}.


Definition set_device_var (v : string) (g : gui) : gui :=
  {| model_var := model_var g; url_var := url_var g; ctx_var := ctx_var g;
     quant_var := quant_var g; device_var := v; out_var := out_var g;
     safe_ser_var := safe_ser_var g; url_entry := url_entry g;
     model_info := model_info g; progress := progress g;
     status_text := status_text g; status_fg := status_fg g;
     start_btn := start_btn g; stop_btn := stop_btn g; log := log g;
     stop_evt := stop_evt g; proc := proc g; effects := effects g |}.

Definition set_out_var (v : string) (g : gui) : gui :=
  {| model_var := model_var g; url_var := url_var g; ctx_var := ctx_var g;
     quant_var := quant_var g; device_var := device_var g; out_var := v;
     safe_ser_var := safe_ser_var g; url_entry := url_entry g;
     model_info := model_info g; progress := progress g;
     status_text := status_text g; status_fg := status_fg g;
     start_btn := start_btn g; stop_btn := stop_btn g; log := log g;
     stop_evt := stop_evt g; proc := proc g; effects := effects g |}.

Definition set_safe_ser_var (v : bool) (g : gui) : gui :=
  {| model_var := model_var g; url_var := url_var g; ctx_var := ctx_var g;
     quant_var := quant_var g; device_var := device_var g;
     out_var := out_var g; safe_ser_var := v; url_entry := url_entry g;
     model_info := model_info g; progress := progress g;
     status_text := status_text g; status_fg := status_fg g;
     start_btn := start_btn g; stop_btn := stop_btn g; log := log g;
     stop_evt := stop_evt g; proc := proc g; effects := effects g |}.

Definition set_url_entry (v : state) (g : gui) : gui :=
  {| model_var := model_var g; url_var := url_var g; ctx_var := ctx_var g;
     quant_var := quant_var g; device_var := device_var g;
     out_var := out_var g; safe_ser_var := safe_ser_var g; url_entry := v;
     model_info := model_info g; progress := progress g;
     status_text := status_text g; status_fg := status_fg g;
     start_btn := start_btn g; stop_btn := stop_btn g; log := log g;
     stop_evt := stop_evt g; proc := proc g; effects := effects g |}.

Definition set_model_info (v : string) (g : gui) : gui :=
  {| model_var := model_var g; url_var := url_var g; ctx_var := ctx_var g;
     quant_var := quant_var g; device_var := device_var g;
     out_var := out_var g; safe_ser_var := safe_ser_var g;
     url_entry := url_entry g; model_info := v; progress := progress g;
     status_text := status_text g; status_fg := status_fg g;
     start_btn := start_btn g; stop_btn := stop_btn g; log := log g;
     stop_evt := stop_evt g; proc := proc g; effects := effects g |}.

Definition set_progress (v : Z) (g : gui) : gui :=
  {| model_var := model_var g; url_var := url_var g; ctx_var := ctx_var g;
     quant_var := quant_var g; device_var := device_var g;
     out_var := out_var g; safe_ser_var := safe_ser_var g;
     url_entry := url_entry g; model_info := model_info g; progress := v;
     status_text := status_text g; status_fg := status_fg g;
     start_btn := start_btn g; stop_btn := stop_btn g; log := log g;
     stop_evt := stop_evt g; proc := proc g; effects := effects g |}.

Definition set_status_text (v : string) (g : gui) : gui :=
  {| model_var := model_var g; url_var := url_var g; ctx_var := ctx_var g;
     quant_var := quant_var g; device_var := device_var g;
     out_var := out_var g; safe_ser_var := safe_ser_var g;
     url_entry := url_entry g; model_info := model_info g;
     progress := progress g; status_text := v; status_fg := status_fg g;
     start_btn := start_btn g; stop_btn := stop_btn g; log := log g;
     stop_evt := stop_evt g; proc := proc g; effects := effects g |}.

Definition set_status_fg (v : string) (g : gui) : gui :=
  {| model_var := model_var g; url_var := url_var g; ctx_var := ctx_var g;
     quant_var := quant_var g; device_var := device_var g;
     out_var := out_var g; safe_ser_var := safe_ser_var g;
     url_entry := url_entry g; model_info := model_info g;
     progress := progress g; status_text := status_text g; status_fg := v;
     start_btn := start_btn g; stop_btn := stop_btn g; log := log g;
     stop_evt := stop_evt g; proc := proc g; effects := effects g |}.

Definition set_start_btn (v : state) (g : gui) : gui :=
  {| model_var := model_var g; url_var := url_var g; ctx_var := ctx_var g;
     quant_var := quant_var g; device_var := device_var g;
     out_var := out_var g; safe_ser_var := safe_ser_var g;
     url_entry := url_entry g; model_info := model_info g;
     progress := progress g; status_text := status_text g;
     status_fg := status_fg g; start_btn := v; stop_btn := stop_btn g;
     log := log g; stop_evt := stop_evt g; proc := proc g;
     effects := effects g |}.

Definition set_stop_btn (v : state) (g : gui) : gui :=
  {| model_var := model_var g; url_var := url_var g; ctx_var := ctx_var g;
     quant_var := quant_var g; device_var := device_var g;
     out_var := out_var g; safe_ser_var := safe_ser_var g;
     url_entry := url_entry g; model_info := model_info g;
     progress := progress g; status_text := status_text g;
     status_fg := status_fg g; start_btn := start_btn g; stop_btn := v;
     log := log g; stop_evt := stop_evt g; proc := proc g;
     effects := effects g |}.

Definition set_log (v : string) (g : gui) : gui :=
  {| model_var := model_var g; url_var := url_var g; ctx_var := ctx_var g;
     quant_var := quant_var g; device_var := device_var g;
     out_var := out_var g; safe_ser_var := safe_ser_var g;
     url_entry := url_entry g; model_info := model_info g;
     progress := progress g; status_text := status_text g;
     status_fg := status_fg g; start_btn := start_btn g;
     stop_btn := stop_btn g; log := v; stop_evt := stop_evt g;
     proc := proc g; effects := effects g |}.

Definition set_stop_evt (v : bool) (g : gui) : gui :=
  {| model_var := model_var g; url_var := url_var g; ctx_var := ctx_var g;
     quant_var := quant_var g; device_var := device_var g;
     out_var := out_var g; safe_ser_var := safe_ser_var g;
     url_entry := url_entry g; model_info := model_info g;
     progress := progress g; status_text := status_text g;
     status_fg := status_fg g; start_btn := start_btn g;
     stop_btn := stop_btn g; log := log g; stop_evt := v; proc := proc g;
     effects := effects g |}.

Definition set_proc (v : option Worker.cfg) (g : gui) : gui :=
  {| model_var := model_var g; url_var := url_var g; ctx_var := ctx_var g;
     quant_var := quant_var g; device_var := device_var g;
     out_var := out_var g; safe_ser_var := safe_ser_var g;
     url_entry := url_entry g; model_info := model_info g;
     progress := progress g; status_text := status_text g;
     status_fg := status_fg g; start_btn := start_btn g;
     stop_btn := stop_btn g; log := log g; stop_evt := stop_evt g; proc := v;
     effects := effects g |}.

Definition set_effects (v : list effect) (g : gui) : gui :=
  {| model_var := model_var g; url_var := url_var g; ctx_var := ctx_var g;
     quant_var := quant_var g; device_var := device_var g;
     out_var := out_var g; safe_ser_var := safe_ser_var g;
     url_entry := url_entry g; model_info := model_info g;
     progress := progress g; status_text := status_text g;
     status_fg := status_fg g; start_btn := start_btn g;
     stop_btn := stop_btn g; log := log g; stop_evt := stop_evt g;
     proc := proc g; effects := v |}.

Definition do (e : effect) (g : gui) : gui := set_effects (effects g ++ [e]) g.

(** [self.status.config(text=..., foreground=...)] *)
Definition set_status (text fg : string) (g : gui) : gui :=
  set_status_fg fg (set_status_text text g).

(** *** The methods *)

(** [get_model_info] *)
Definition get_model_info (g : gui) : option info :=
  let selected := Py.strip (model_var g) in
  if negb (Py.truthy selected) || Py.startswith "---" selected then None
  else
    let model_name := Py.strip selected in
    find_model model_name model_groups.

(** [on_model_change] *)
Definition on_model_change (g : gui) : gui :=
  match get_model_info g with
  | None => g
  | Some i =>
      let g := set_url_var (url i) g in
      let g := set_url_entry (if Py.truthy (url i) then readonly else normal) g in
      set_model_info
        ("📏 " +:+ params i +:+ " параметров | 🏷️ " +:+ type i +:+ " | 📝 " +:+ desc i)
        g
  end.

(** [_set_default_model] *)
Definition _set_default_model (g : gui) : gui :=
  match combobox_values with
  | _ :: v1 :: _ => on_model_change (set_model_var v1 g)
  | _ => g
  end.

(** The state [build_ui] leaves: every variable at the value its
    constructor gives it, then the default model. *)
Definition build_ui : gui :=
  _set_default_model
    {| model_var := ""; url_var := ""; ctx_var := 4096;
       quant_var := "nf4 (bnb4)"; device_var := "gpu"; out_var := "./output";
       safe_ser_var := true; url_entry := normal; model_info := "";
       progress := 0; status_text := "Готово к работе"; status_fg := "#28a745";
       start_btn := normal; stop_btn := disabled; log := "";
       stop_evt := false; proc := None; effects := [] |}.

(** [log_msg] *)
Definition log_msg (message : string) (g : gui) : gui :=
  set_log
    (log g +:+ (if Py.endswith Py.nl message then message else message +:+ Py.nl))
    g.

(** Lines 542-544 of [start]. *)
Definition device_map_of (device_setting : string) : string :=
  if Py.mem device_setting ["cpu"; "cuda"] then device_setting else "auto".

(** Lines 540-554 of [start]: the [config] dict. *)
Definition make_config (url : string) (g : gui) : Worker.cfg :=
  let device_setting := device_var g in
  let force_cpu := String.eqb device_setting "cpu" in
  let device_map := device_map_of device_setting in
  {| Worker.TARGET_MODEL_URL := url;
     Worker.OUTPUT_PATH := out_var g;
     Worker.MODEL_TYPE :=
       match get_model_info g with Some i => type i | None => "vision" end;
     Worker.SAFE_SERIALIZATION := safe_ser_var g;
     Worker.MAX_SEQ_LENGTH := ctx_var g;
     Worker.FORCE_CPU := force_cpu;
     Worker.DEVICE := device_map |}.

(** [start] *)
Definition start (g : gui) : gui :=
  let url := Py.strip (url_var g) in
  if negb (Py.truthy url) then
    do (showerror "Ошибка" "Пожалуйста, укажите URL модели") g
  else
    let config := make_config url g in
    let g := set_start_btn disabled g in
    let g := set_stop_btn normal g in
    let g := set_progress 0 g in
    let g := set_status "Запуск конвертации..." "#fd7e14" g in
    let g := set_stop_evt false g in
    let g := set_proc (Some config) g in
    do (Spawn config) g.

(** [_reset_interface] *)
Definition _reset_interface (g : gui) : gui :=
  set_stop_btn disabled (set_start_btn normal g).

(** [stop]: [confirmed] is the answer to the question, [alive] is
    [self.proc.is_alive()]. *)
Definition stop (confirmed alive : bool) (g : gui) : gui :=
  let g := do (askyesno "Подтверждение"
                 "Вы действительно хотите остановить конвертацию?") g in
  if confirmed then
    let g := set_stop_evt true g in
    let g := match proc g with
             | Some _ => if alive then do Terminate g else g
             | None => g
             end in
    let g := _reset_interface g in
    set_status "Операция прервана пользователем" "#dc3545" g
  else g.

(** The body of the loop of [check_pipe], for one received message;
    [timestamp] is [datetime.now().strftime("%H:%M:%S")]. *)
Definition receive (timestamp : string) (message : Worker.msg) (g : gui) : gui :=
  match message with
  | Worker.Progress pct stage =>
      let g := set_progress pct g in
      if Py.truthy stage
      then set_status ("Выполняется: " +:+ stage) "#fd7e14" g
      else g
  | Worker.Log text => log_msg ("[" +:+ timestamp +:+ "] " +:+ text) g
  | Worker.Status text => set_status text "#fd7e14" g
  | Worker.Done =>
      let g := _reset_interface g in
      let g := set_status "✅ Конвертация завершена успешно!" "#28a745" g in
      do (showinfo "Успех" "Модель успешно сконвертирована в bnb4 формат!") g
  end.

(** [check_pipe]: one polling cycle drains the messages that are
    pending, in arrival order; [clock k] is the time read for the
    [k]-th of them. *)
Fixpoint drain (clock : nat -> string) (k : nat) (pending : list Worker.msg)
    (g : gui) : gui :=
  match pending with
  | [] => g
  | m :: rest => drain clock (S k) rest (receive (clock k) m g)
  end.

Definition check_pipe (clock : nat -> string) (pending : list Worker.msg)
    (g : gui) : gui :=
  drain clock 0 pending g.

End Gui.

(** ** The settings file: [load_settings] and [save_settings] *)

Module Settings.

Import Gui.

(** The values [save_settings] puts into the settings dict, and JSON's
    [null]. *)
Inductive pyval :=
| PNone
| PBool (b : bool)
| PInt (n : Z)
| PStr (s : string).

(** What [load_settings] finds at ["gui_settings.json"]: no file; a file
    that [open] refuses, with the text of the error; a file that
    [json.load] refuses; a JSON document that is not an object, with the
    name of the Python type it loads as; a JSON object.  The file is
    kept as what [json.load] makes of it: that [json.load] gives back
    the dict [json.dump] was given is the contract of the [json]
    module, not a property of this program. *)
Inductive file :=
| Missing
| Unreadable (e : string)
| Malformed (e : string)
| NotAnObject (type_name : string)
| Object (settings : gmap string pyval).

(** The Tk variables are typed; setting one to a value of its own type
    stores the value.  What Tk makes of a value of another type is left
    out of the model: [None]. *)
Definition as_str (v : pyval) : option string :=
  match v with PStr s => Some s | _ => None end.

Definition as_int (v : pyval) : option Z :=
  match v with PInt n => Some n | _ => None end.

Definition as_bool (v : pyval) : option bool :=
  match v with PBool b => Some b | _ => None end.

(** [settings.get(key, dflt)] *)
Definition get (settings : gmap string pyval) (key : string) (dflt : pyval)
  : pyval :=
  default dflt (settings !! key).

(** [settings.get('model') in self.model_cb['values']]: only a [str] can
    be equal to an entry of the combobox. *)
Definition model_known (settings : gmap string pyval) : option string :=
  match settings !! "model" with
  | Some (PStr m) => if Py.mem m combobox_values then Some m else None
  | _ => None
  end.

Definition report_load (e : string) (g : gui) : gui :=
  do (print ("Ошибка загрузки настроек: " +:+ e)) g.

(** Lines 616-623: the body of the [try] once the file is parsed. *)
Definition apply_settings (settings : gmap string pyval) (g : gui) : option gui :=
  let g := match model_known settings with
           | Some m => on_model_change (set_model_var m g)
           | None => g
           end in
  out ← as_str (get settings "output_path" (PStr (out_var g)));
  let g := set_out_var out g in
  ctx ← as_int (get settings "context_length" (PInt (ctx_var g)));
  let g := set_ctx_var ctx g in
  dev ← as_str (get settings "device" (PStr "gpu"));
  let g := set_device_var dev g in
  safe ← as_bool (get settings "safe_serialization" (PBool true));
  Some (set_safe_ser_var safe g).

(** [load_settings] *)
Definition load_settings (f : file) (g : gui) : option gui :=
  match f with
  | Missing => Some g
  | Unreadable e => Some (report_load e g)
  | Malformed e => Some (report_load e g)
  | NotAnObject type_name =>
      Some (report_load ("'" +:+ type_name +:+ "' object has no attribute 'get'") g)
  | Object settings => apply_settings settings g
  end.

(** The dict [save_settings] builds. *)
Definition settings_of (g : gui) : gmap string pyval :=
  <["model" := PStr (model_var g)]>
    (<["output_path" := PStr (out_var g)]>
       (<["context_length" := PInt (ctx_var g)]>
          (<["device" := PStr (device_var g)]>
             (<["safe_serialization" := PBool (safe_ser_var g)]> ∅)))).

(** [save_settings]: [refused] is the error of [open], if it raises;
    otherwise the dict is dumped and the file holds it. *)
Definition save_settings (refused : option string) (old : file) (g : gui)
  : file * gui :=
  match refused with
  | None => (Object (settings_of g), g)
  | Some e => (old, do (print ("Ошибка сохранения настроек: " +:+ e)) g)
  end.

(** A session starts at [__init__]: [build_ui], then [load_settings]. *)
Definition new_session (f : file) : option gui := load_settings f build_ui.

(** The five values of a configuration. *)
Definition values_of (g : gui) : string * string * Z * string * bool :=
  (model_var g, out_var g, ctx_var g, device_var g, safe_ser_var g).

End Settings.

(** ** Properties of runs *)

Module Spec.

Import Worker.

(** *** A program logic for worker computations

    [extends P Q s s'] : from [s] to [s'] the pipe and the call log only
    grew, by messages that satisfy [P] and calls that satisfy [Q]. *)
Definition extends (P : msg -> Prop) (Q : call -> Prop) (s s' : wstate) : Prop :=
  exists (l : list msg) (cl : list call),
    chan s' = chan s ++ l /\ calls s' = calls s ++ cl
    /\ Forall P l /\ Forall Q cl.

(** [post P Q R m] : whatever [m] sends satisfies [P], whatever it calls
    satisfies [Q], and a value it returns satisfies [R]. *)
Definition post {A} (P : msg -> Prop) (Q : call -> Prop) (R : A -> Prop)
    (m : W A) : Prop :=
  forall s r s', m s = (r, s') ->
    extends P Q s s' /\ (forall a, r = Ok a -> R a).

Definition any {A} : A -> Prop := fun _ => True.

(** [obeys n m] : [m] never unreads the flag, and when one of its reads
    is the [n]-th or a later one, it ends in [KeyboardInterrupt]. *)
Definition obeys {A} (n : nat) (m : W A) : Prop :=
  forall s r s', m s = (r, s') ->
    checks s <= checks s'
    /\ (checks s < checks s' -> n < checks s' -> r = Raise KeyboardInterrupt).

(** *** Completion and error reporting *)

(** [text] contains [e]. *)
Definition contains (e text : string) : Prop :=
  exists pre suf, text = pre +:+ e +:+ suf.

(** Exactly one completion message, and it is the last message. *)
Definition completes_once (l : list msg) : Prop :=
  exists before : list msg, l = before ++ [Done] /\ ~ In Done before.

(** The number of reads of the flag the body of the outer [try] makes:
    the next read is the one of the handler. *)
Definition checks_in_body (w : world) (c : cfg) : nat :=
  checks (snd (body w c at_try)).

(** When the body raises an [Exception], a log message with the text of
    the error is sent just before the completion message. *)
Definition reports_error (w : world) (c : cfg) : Prop :=
  forall e, body_result w c = Raise (Exception e) ->
    exists (before : list msg) (text : string),
      sent w c = before ++ [Log text; Done] /\ contains e text.

(** The completion contract as the specification words it: one final
    completion message on every run, and the error text logged on every
    run whose body raises an [Exception]. *)
Definition completion_contract (w : world) (c : cfg) : Prop :=
  completes_once (sent w c) /\ reports_error w c.

(** [m] reads the flag at least once. *)
Definition reads {A} (m : W A) : Prop :=
  forall s r s', m s = (r, s') -> checks s < checks s'.

(** The flag is set from its [n]-th read on. *)
Definition set_from (w : world) (n : nat) : Prop :=
  forall k, n <= k -> stop_at w k = true.

(** A run in which the flag is set mid-run: it is set from its [n]-th
    read on, and the run reads it at least once from then on. *)
Definition cancelled_mid_run (w : world) (c : cfg) (n : nat) : Prop :=
  set_from w n /\ n < checks (snd (run w c)).

(** *** Device placement and quantization *)

(** The directive [choose_device] settles on. *)
Definition directive (c : cfg) : string :=
  if FORCE_CPU c then "cpu"
  else if String.eqb (DEVICE c) "cpu" then "cpu"
  else if String.eqb (DEVICE c) "cuda" then "cuda"
  else "auto".

(** The [device_map] arguments of the [from_pretrained] calls. *)
Definition device_maps (cl : list call) : list string :=
  flat_map
    (fun k => match k with
              | LoadImageTextToText _ _ d _ => [d]
              | LoadCausalLM _ _ d _ => [d]
              | _ => []
              end) cl.



(** *** The output directory *)

Definition no_slash (s : string) : Prop :=
  ~ In Py.slash (list_ascii_of_string s).

Fixpoint slashes (k : nat) : string :=
  match k with
  | O => ""
  | S k' => String Py.slash (slashes k')
  end.

(** [r] is the final segment of [u] once the trailing slashes are
    dropped: [u] is a prefix that is empty or ends in a slash, then [r],
    then slashes only; [r] has no slash, and is empty only when [u] is
    slashes only. *)
Definition final_segment (u r : string) : Prop :=
  exists pre k,
    u = pre +:+ r +:+ slashes k
    /\ no_slash r
    /\ (pre = "" \/ exists pre', pre = pre' +:+ "/")
    /\ (r = "" -> pre = "").

(** The calls that write below the output root: the second [mkdir] and
    the three [save_pretrained]. *)
Definition writes (cl : list call) : list call :=
  List.filter
    (fun k => match k with
              | Mkdir _ false | SaveModel _ _ | SaveTokenizer _
              | SaveImageProcessor _ => true
              | _ => false
              end) cl.

(** The calls of the two model loaders. *)
Definition loader (k : call) : Prop :=
  match k with
  | LoadImageTextToText _ _ _ _ | LoadCausalLM _ _ _ _ => True
  | _ => False
  end.

(** An image processor was loaded: the call was made and returned. *)
Definition processor_loaded (w : world) (c : cfg) : Prop :=
  In (LoadImageProcessor (TARGET_MODEL_URL c)) (called w c)
  /\ load_image_processor w = Returns.

(** *** The settings file *)


End Spec.

(** ** Scenarios *)

Module Scenario.

Import Worker.

(** A world in which every call returns but the import of
    [transformers], which ends as [imp], and the loading of the
    tokenizer, which ends as [tok]; the flag reads as [stop]. *)
Definition calm (stop : nat -> bool) (imp tok : outcome) : world :=
  {| stop_at := stop;
     cuda_is_available := true;
     cuda_is_bf16_supported := true;
     import_transformers := imp;
     mkdir_out := Returns;
     new_bnb_config := Returns;
     load_image_text_to_text := Returns;
     load_causal_lm := Returns;
     load_tokenizer := tok;
     load_image_processor := Returns;
     empty_cache := Returns;
     mkdir_final := Returns;
     save_model := Returns;
     save_tokenizer := Returns;
     save_image_processor := Returns;
     format_exc := "Traceback (most recent call last): ..." |}.

(** The flag is never set. *)
Definition never : nat -> bool := fun _ => false.

(** The flag is set before its [n]-th read and stays set. *)
Definition from (n : nat) : nat -> bool := fun k => (n <=? k)%nat.

(** The job of the scenario of the specification. *)
Definition text_job : cfg :=
  {| TARGET_MODEL_URL := "org/model-a";
     OUTPUT_PATH := "./output";
     MODEL_TYPE := "text";
     SAFE_SERIALIZATION := true;
     MAX_SEQ_LENGTH := 4096;
     FORCE_CPU := false;
     DEVICE := "auto" |}.

(** The job [start] makes of the state [build_ui] leaves. *)
Definition vision_job : cfg :=
  {| TARGET_MODEL_URL := "numind/NuMarkdown-8B-Thinking";
     OUTPUT_PATH := "./output";
     MODEL_TYPE := "vision";
     SAFE_SERIALIZATION := true;
     MAX_SEQ_LENGTH := 4096;
     FORCE_CPU := false;
     DEVICE := "auto" |}.

(** Every call returns and nobody cancels. *)
Definition quiet_world : world := calm never Returns Returns.

(** The [transformers] package cannot be imported. *)
Definition no_transformers : world :=
  calm never (Raises (Exception "No module named 'transformers'")) Returns.

(** The tokenizer cannot be loaded; nobody cancels. *)
Definition broken_world : world :=
  calm never Returns (Raises (Exception "boom")).

(** The tokenizer cannot be loaded, and the flag is set while the
    loader runs: the body reads the flag eight times, all clear, and the
    ninth read, the one of the handler, finds it set. *)
Definition broken_then_stopped : world :=
  calm (from 8) Returns (Raises (Exception "boom")).

(** The user stops the job while the model loads: the flag is set from
    its sixth read on. *)
Definition stopped_world : world := calm (from 5) Returns Returns.

(** A session in which the user chose the custom model, another output
    folder, the shortest context, the CPU and pickle serialization. *)
Definition custom_session : Gui.gui :=
  Gui.set_safe_ser_var false
    (Gui.set_device_var "cpu"
       (Gui.set_ctx_var 512
          (Gui.set_out_var "/srv/models"
             (Gui.on_model_change
                (Gui.set_model_var "  Своя модель" Gui.build_ui))))).

(** A settings file that names the device only. *)
Definition device_only : gmap string Settings.pyval :=
  {[ "device" := Settings.PStr "cpu" ]}.

End Scenario.

(** ** The journal and the closing of the window *)

Module Journal.

Import Gui.

(** [clear_log] *)
Definition clear_log (g : gui) : gui := set_log "" g.

(** [LogStream.write], with [self.log_msg] for [log_func]: what is
    written to [sys.stdout] and [sys.stderr] once [redirect_output] ran. *)
Definition write (message : string) (g : gui) : gui :=
  if Py.truthy (Py.strip message) then log_msg message g else g.

(** [browse_folder]: [folder] is what [filedialog.askdirectory] returns,
    the empty string when the dialog is cancelled. *)
Definition browse_folder (folder : string) (g : gui) : gui :=
  if Py.truthy folder then set_out_var folder g else g.

(** The journal holds complete lines only. *)
Definition whole_lines (text : string) : Prop :=
  text = "" \/ Py.endswith Py.nl text = true.

(** What one received message adds to the journal. *)
Definition journal_line (timestamp : string) (message : Worker.msg) : string :=
  match message with
  | Worker.Log text =>
      let line := "[" +:+ timestamp +:+ "] " +:+ text in
      if Py.endswith Py.nl line then line else line +:+ Py.nl
  | _ => ""
  end.

Fixpoint journal_lines (clock : nat -> string) (k : nat)
    (pending : list Worker.msg) : string :=
  match pending with
  | [] => ""
  | m :: rest => journal_line (clock k) m +:+ journal_lines clock (S k) rest
  end.

(** The progress value the bar shows after the messages of [pending],
    when it showed [shown] before. *)
Definition last_progress (pending : list Worker.msg) (shown : Z) : Z :=
  fold_left
    (fun p m => match m with Worker.Progress pct _ => pct | _ => p end)
    pending shown.

End Journal.

Module Closing.

Import Gui.

(** What [on_close] leaves: whether the user was asked, whether the
    window is destroyed, the settings file, the state. *)
Record closed := {
  asked : bool;
  destroyed : bool;
  disk : Settings.file;
  after : gui
}.

(** Lines 651-652 of [on_close]. *)
Definition save_and_destroy (was_asked : bool) (refused : option string)
    (old : Settings.file) (g : gui) : closed :=
  let '(f, g) := Settings.save_settings refused old g in
  {| asked := was_asked; destroyed := true; disk := f; after := g |}.

(** [on_close]: [alive] is [self.proc.is_alive()], [ok] the answer to
    [askokcancel], [refused] the error of [open] in [save_settings]. *)
Definition on_close (alive ok : bool) (refused : option string)
    (old : Settings.file) (g : gui) : closed :=
  match proc g with
  | Some _ =>
      if alive then
        if negb ok then
          {| asked := true; destroyed := false; disk := old; after := g |}
        else
          let g := set_stop_evt true g in
          let g := do Terminate g in
          save_and_destroy true refused old g
      else save_and_destroy false refused old g
  | None => save_and_destroy false refused old g
  end.

End Closing.

(** ** More properties of runs *)

Module Trace.

Import Worker.

(** [steps R m] : every execution of [m] takes a state to an
    [R]-related one, whether it returns or raises. *)
Definition steps {A} (R : wstate -> wstate -> Prop) (m : W A) : Prop :=
  forall s r s', m s = (r, s') -> R s s'.

(** The messages other than the completion message. *)
Definition reports (l : list msg) : list msg :=
  List.filter (fun m => match m with Done => false | _ => true end) l.

(** With the flag set from its [n]-th read on: the flag is never
    unread, and no more reports are sent than reads found it clear. *)
Definition paced (n : nat) (s s' : wstate) : Prop :=
  checks s <= checks s'
  /\ length (reports (chan s')) + Nat.min n (checks s)
     <= length (reports (chan s)) + Nat.min n (checks s').

(** The call log grew by calls that satisfy [L] as a whole. *)
Definition grows (L : list call -> Prop) (s s' : wstate) : Prop :=
  exists cl : list call, calls s' = calls s ++ cl /\ L cl.

(** Every call of the vision loader is followed up by a call of the
    generic loader with the same arguments. *)
Definition falls_back (cl : list call) : Prop :=
  forall u q d t,
    In (LoadImageTextToText u q d t) cl -> In (LoadCausalLM u q d t) cl.

(** The calls only a vision job makes. *)
Definition vision_call (k : call) : Prop :=
  match k with
  | LoadImageTextToText _ _ _ _ | LoadImageProcessor _ | SaveImageProcessor _ =>
      True
  | _ => False
  end.

(** The quantization configuration and the dtype handed to the
    loaders. *)
Definition loader_args (cl : list call)
  : list (option bnb_config * option dtype) :=
  flat_map
    (fun k => match k with
              | LoadImageTextToText _ q _ t => [(q, t)]
              | LoadCausalLM _ q _ t => [(q, t)]
              | _ => []
              end) cl.

(** Nothing was written below the output root, or [F] holds. *)
Definition writes_need (F : Prop) (k : call) : Prop :=
  Spec.writes [k] <> [] -> F.

(** The model and the tokenizer were loaded: the output root exists,
    the quantization configuration was built, a model loader and the
    tokenizer loader returned. *)
Definition loaded (w : world) : Prop :=
  mkdir_out w = Returns
  /\ new_bnb_config w = Returns
  /\ (load_image_text_to_text w = Returns \/ load_causal_lm w = Returns)
  /\ load_tokenizer w = Returns.

(** The percentages of the progress messages, in order. *)
Definition progress_values (l : list msg) : list Z :=
  flat_map (fun m => match m with Progress p _ => [p] | _ => [] end) l.

(** The percentages the worker reports. *)
Definition milestones : list Z := [0; 15; 40; 55; 70; 85; 100]%Z.

(** The percentages sent so far are milestones, strictly increasing,
    none above [b]. *)
Definition below (b : Z) (l : list msg) : Prop :=
  StronglySorted Z.lt (progress_values l)
  /\ Forall (fun p => In p milestones /\ (p <= b)%Z) (progress_values l).

(** [m] takes the progress from at most [a] to at most [b]. *)
Definition climbs {A} (a b : Z) (m : W A) : Prop :=
  forall s r s', m s = (r, s') -> below a (chan s) -> below b (chan s').

(** When [m] raises, what it sent satisfies [P]. *)
Definition fails_within {A} (P : msg -> Prop) (m : W A) : Prop :=
  forall s r s', m s = (r, s') ->
    exists l : list msg,
      chan s' = chan s ++ l /\ (forall e, r = Raise e -> Forall P l).

(** The log message of the handler of [Exception]. *)
Definition is_error_log (m : msg) : bool :=
  match m with
  | Log text => String.prefix "❌ Ошибка: " text
  | _ => false
  end.

(** A world in which every call returns but the vision loader, and the
    flag is never set. *)
Definition no_vision_loader : world :=
  {| stop_at := fun _ => false;
     cuda_is_available := false;
     cuda_is_bf16_supported := false;
     import_transformers := Returns;
     mkdir_out := Returns;
     new_bnb_config := Returns;
     load_image_text_to_text := Raises (Exception "unrecognized configuration");
     load_causal_lm := Returns;
     load_tokenizer := Returns;
     load_image_processor := Returns;
     empty_cache := Returns;
     mkdir_final := Returns;
     save_model := Returns;
     save_tokenizer := Returns;
     save_image_processor := Returns;
     format_exc := "Traceback (most recent call last): ..." |}.

End Trace.

(** * Proofs *)

(** ** The program logic *)

Module Logic.

Import Worker Spec.

Section Rules.

Variable w : world.
Variable P : msg -> Prop.
Variable Q : call -> Prop.

Lemma extends_refl s : extends P Q s s.
Proof.
  exists [], []. rewrite !app_nil_r. auto.
Qed.

Lemma extends_trans s1 s2 s3 :
  extends P Q s1 s2 -> extends P Q s2 s3 -> extends P Q s1 s3.
Proof.
  intros (l1 & c1 & Hl1 & Hc1 & HP1 & HQ1) (l2 & c2 & Hl2 & Hc2 & HP2 & HQ2).
  exists (l1 ++ l2), (c1 ++ c2).
  rewrite Hl2, Hl1, Hc2, Hc1, <- !app_assoc.
  repeat split; auto; apply Forall_app; auto.
Qed.

Lemma post_ret {A} (R : A -> Prop) (a : A) : R a -> post P Q R (ret a).
Proof.
  intros Ha s r s' E. inversion E; subst. split.
  - apply extends_refl.
  - intros a' Ea. inversion Ea; subst. exact Ha.
Qed.

Lemma post_raise {A} (R : A -> Prop) (e : exn) : post P Q R (raise e).
Proof.
  intros s r s' E. inversion E; subst. split.
  - apply extends_refl.
  - intros a' Ea. discriminate.
Qed.

Lemma post_bind {A B} (R1 : A -> Prop) (R : B -> Prop) (m : W A) (k : A -> W B) :
  post P Q R1 m -> (forall a, R1 a -> post P Q R (k a)) -> post P Q R (bind m k).
Proof.
  intros Hm Hk s r s' E. unfold bind in E.
  destruct (m s) as [[a | e] s1] eqn:Em.
  - destruct (Hm _ _ _ Em) as [X1 Ra].
    destruct (Hk a (Ra a eq_refl) _ _ _ E) as [X2 Rb].
    split; [eapply extends_trans; eauto | exact Rb].
  - inversion E; subst. destruct (Hm _ _ _ Em) as [X1 _].
    split; [exact X1 | intros; discriminate].
Qed.

Lemma post_weaken {A} (R R' : A -> Prop) (m : W A) :
  post P Q R m -> (forall a, R a -> R' a) -> post P Q R' m.
Proof.
  intros Hm HR s r s' E. destruct (Hm _ _ _ E) as [X Ra].
  split; [exact X | intros a Ea; auto].
Qed.

Lemma post_try_except {A} (R : A -> Prop) (m h1 : W A) (h2 : string -> W A) :
  post P Q R m -> post P Q R h1 -> (forall e, post P Q R (h2 e)) ->
  post P Q R (try_except m h1 h2).
Proof.
  intros Hm H1 H2 s r s' E. unfold try_except in E.
  destruct (m s) as [[a | [| t]] s1] eqn:Em; destruct (Hm _ _ _ Em) as [X1 Ra].
  - inversion E; subst. split; auto.
  - destruct (H1 _ _ _ E) as [X2 Rb]. split; [eapply extends_trans; eauto | auto].
  - destruct (H2 t _ _ _ E) as [X2 Rb]. split; [eapply extends_trans; eauto | auto].
Qed.

Lemma post_try_except_Exception {A} (R : A -> Prop) (m h : W A) :
  post P Q R m -> post P Q R h -> post P Q R (try_except_Exception m h).
Proof.
  intros Hm Hh s r s' E. unfold try_except_Exception in E.
  destruct (m s) as [[a | [| t]] s1] eqn:Em; destruct (Hm _ _ _ Em) as [X1 Ra].
  - inversion E; subst. split; auto.
  - inversion E; subst. split; [auto | intros; discriminate].
  - destruct (Hh _ _ _ E) as [X2 Rb]. split; [eapply extends_trans; eauto | auto].
Qed.

Lemma post_try_except_all {A} (R : A -> Prop) (m h : W A) :
  post P Q R m -> post P Q R h -> post P Q R (try_except_all m h).
Proof.
  intros Hm Hh s r s' E. unfold try_except_all in E.
  destruct (m s) as [[a | e] s1] eqn:Em; destruct (Hm _ _ _ Em) as [X1 Ra].
  - inversion E; subst. split; auto.
  - destruct (Hh _ _ _ E) as [X2 Rb]. split; [eapply extends_trans; eauto | auto].
Qed.

Lemma post_is_set : post P Q any (is_set w).
Proof.
  intros s r s' E. inversion E; subst. split.
  - exists [], []. simpl. rewrite !app_nil_r. auto.
  - intros; exact I.
Qed.

Lemma post_conn_send (m : msg) : P m -> post P Q any (conn_send m).
Proof.
  intros Hm s r s' E. inversion E; subst. split.
  - exists [m], []. simpl. rewrite app_nil_r. auto.
  - intros; exact I.
Qed.

Lemma post_ext (k : call) (o : outcome) : Q k -> post P Q any (ext k o).
Proof.
  intros Hk s r s' E. unfold ext in E. split.
  - exists [], [k]. destruct o; inversion E; subst; simpl;
      rewrite app_nil_r; auto.
  - intros; exact I.
Qed.

Lemma post_send_log (t : string) : P (Log t) -> post P Q any (send_log w t).
Proof.
  intros Ht. unfold send_log. eapply post_bind; [apply post_is_set |].
  intros [|] _; [apply post_raise | apply post_conn_send, Ht].
Qed.

Lemma post_send_status (t : string) : P (Status t) -> post P Q any (send_status w t).
Proof.
  intros Ht. unfold send_status. eapply post_bind; [apply post_is_set |].
  intros [|] _; [apply post_raise | apply post_conn_send, Ht].
Qed.

Lemma post_send_progress (pct : Z) (stage : string) :
  P (Progress pct stage) -> post P Q any (send_progress w pct stage).
Proof.
  intros Ht. unfold send_progress. eapply post_bind; [apply post_is_set |].
  intros [|] _; [apply post_raise | apply post_conn_send, Ht].
Qed.

Lemma post_index_last (l : list string) : post P Q any (index_last l).
Proof.
  unfold index_last. destruct (last l); [apply post_ret; exact I | apply post_raise].
Qed.

End Rules.

(** The rules, applied along the structure of a computation; [side]
    settles the conditions on the messages and the calls. *)
Ltac walk side :=
  lazymatch goal with
  | |- post _ _ _ (bind _ _) =>
      eapply post_bind with (R1 := any); [walk side | intros ? _; walk side]
  | |- post _ _ _ (ret _) => apply post_ret; exact I
  | |- post _ _ _ (raise _) => apply post_raise
  | |- post _ _ _ (send_log _ _) => apply post_send_log; side
  | |- post _ _ _ (send_status _ _) => apply post_send_status; side
  | |- post _ _ _ (send_progress _ _ _) => apply post_send_progress; side
  | |- post _ _ _ (conn_send _) => apply post_conn_send; side
  | |- post _ _ _ (ext _ _) => apply post_ext; side
  | |- post _ _ _ (index_last _) => apply post_index_last
  | |- post _ _ _ (try_except_Exception _ _) =>
      apply post_try_except_Exception; walk side
  | |- post _ _ _ (try_except_all _ _) => apply post_try_except_all; walk side
  | |- post _ _ _ (try_except _ _ _) =>
      apply post_try_except; [walk side | walk side | intros ?; walk side]
  | |- post _ _ _ (if ?b then _ else _) => destruct b; walk side
  | |- post _ _ _ (load_processor _ _) => unfold load_processor; walk side
  | |- post _ _ _ (load_model _ _ _ _) => unfold load_model; walk side
  end.

Section Worker.

Variable w : world.
Variable c : cfg.
Variable P : msg -> Prop.
Variable Q : call -> Prop.

(** What the body may send: any status and progress, and a log that
    [P] admits. *)
Hypothesis P_status : forall t, P (Status t).
Hypothesis P_progress : forall pct stage, P (Progress pct stage).
Hypothesis P_log_start : forall u, P (Log ("▶️ Начало конвертации: " +:+ u)).
Hypothesis P_log_saved : forall p, P (Log ("✅ Модель сохранена: " +:+ p)).
Hypothesis P_log_force_cpu : P (Log "🖥️ Принудительное использование CPU").
Hypothesis P_log_cpu : P (Log "🖥️ Использование CPU по настройкам").
Hypothesis P_log_gpu : P (Log "🎮 Принудительное использование GPU").
Hypothesis P_log_auto : P (Log "🔄 Автоматический выбор устройства").
Hypothesis P_log_no_processor :
  P (Log "ℹ️ Процессор изображений не найден (возможно, текстовая модель)").

(** What the body may call: anything but a loader, and a loader with
    the directive of the configuration and the configuration built for
    it. *)
Hypothesis Q_other :
  forall k,
    match k with
    | LoadImageTextToText _ _ _ _ | LoadCausalLM _ _ _ _ | NewBnbConfig _
    | ConnClose => True
    | _ => Q k
    end.
Hypothesis Q_bnb : Q (NewBnbConfig (make_bnb_config w (directive c))).
Hypothesis Q_vision :
  Q (LoadImageTextToText (TARGET_MODEL_URL c)
       (quantization_for (directive c) (make_bnb_config w (directive c)))
       (directive c) (dtype_for (directive c))).
Hypothesis Q_causal :
  Q (LoadCausalLM (TARGET_MODEL_URL c)
       (quantization_for (directive c) (make_bnb_config w (directive c)))
       (directive c) (dtype_for (directive c))).

Lemma post_choose_device : post P Q (eq (directive c)) (choose_device w c).
Proof.
  unfold choose_device, directive.
  destruct (FORCE_CPU c); [| destruct (String.eqb (DEVICE c) "cpu");
    [| destruct (String.eqb (DEVICE c) "cuda")]];
    (eapply post_bind with (R1 := any);
     [apply post_send_log; assumption | intros ? _; apply post_ret; reflexivity]).
Qed.

Ltac side :=
  first [ assumption | apply P_status | apply P_progress | apply P_log_start
        | apply P_log_saved | exact (Q_other (Mkdir _ _))
        | exact (Q_other (LoadTokenizer _)) | exact (Q_other (LoadImageProcessor _))
        | exact (Q_other EmptyCache) | exact (Q_other GcCollect)
        | exact (Q_other (SaveModel _ _)) | exact (Q_other (SaveTokenizer _))
        | exact (Q_other (SaveImageProcessor _)) ].

Lemma post_body : post P Q any (body w c).
Proof.
  unfold body.
  eapply post_bind with (R1 := any); [apply post_index_last | intros repo _].
  do 4 (eapply post_bind with (R1 := any); [walk side | intros ? _]).
  eapply post_bind; [apply post_choose_device | intros d <-].
  walk side.
Qed.

End Worker.

End Logic.

(** ** Completion of a run *)

Module Completion.

Import Worker Spec Logic.

Section Run.

Variable w : world.
Variable c : cfg.

(** A worker that cannot import [transformers] dies before the [try]:
    it sends nothing. *)
Lemma run_without_import e :
  import_transformers w = Raises e ->
  run w c = (Raise e, at_try).
Proof.
  intros Himp. unfold run, download_worker, bind, ext. rewrite Himp. reflexivity.
Qed.

Hypothesis Himp : import_transformers w = Returns.

(** The [finally] clause: whatever the outer [try] did, the completion
    message is appended and the connection closed. *)
Lemma run_finally :
  let s1 := snd (attempt w c at_try) in
  run w c =
    (fst (attempt w c at_try),
     {| chan := chan s1 ++ [Done]; calls := calls s1 ++ [ConnClose];
        checks := checks s1 |}).
Proof.
  unfold run, download_worker, bind, ext. rewrite Himp.
  unfold guarded, try_finally.
  change {| chan := chan start_state;
            calls := calls start_state ++ [ImportTransformers];
            checks := checks start_state |} with at_try.
  destruct (attempt w c at_try) as [r s1]. reflexivity.
Qed.

Lemma sent_finally : sent w c = chan (snd (attempt w c at_try)) ++ [Done].
Proof. unfold sent. rewrite run_finally. reflexivity. Qed.

Lemma called_finally :
  called w c = calls (snd (attempt w c at_try)) ++ [ConnClose].
Proof. unfold called. rewrite run_finally. reflexivity. Qed.

Lemma checks_finally :
  checks (snd (run w c)) = checks (snd (attempt w c at_try)).
Proof. rewrite run_finally. reflexivity. Qed.

Lemma result_finally : fst (run w c) = fst (attempt w c at_try).
Proof. rewrite run_finally. reflexivity. Qed.

(** The outer [try] sends what [P] admits, as soon as [P] admits what
    the body and the two handlers may send. *)
Lemma post_attempt (P : msg -> Prop) :
  (forall t, P (Status t)) ->
  (forall pct stage, P (Progress pct stage)) ->
  (forall t, t <> cancelled_text -> P (Log t)) ->
  (stop_at w (checks_in_body w c) = false ->
   body_result w c = Raise KeyboardInterrupt -> P (Log cancelled_text)) ->
  Forall P (chan (snd (attempt w c at_try))).
Proof.
  intros Pstatus Pprogress Plog Pcancel.
  assert (Hbody : post P any any (body w c)).
  { apply post_body; try (intros; exact I); auto;
      try (intros; apply Plog; discriminate).
    intros []; exact I. }
  unfold attempt, try_except, checks_in_body, body_result in *.
  destruct (body w c at_try) as [[[] | [| e]] s1] eqn:Eb;
    destruct (Hbody _ _ _ Eb) as [(l & cl & Hl & _ & HP & _) _];
    simpl in Hl; simpl.
  - rewrite Hl. exact HP.
  - unfold send_log, bind, is_set. simpl in Pcancel.
    destruct (stop_at w (checks s1)); simpl.
    + rewrite Hl. exact HP.
    + rewrite Hl. apply Forall_app. split; [exact HP |].
      constructor; [auto | constructor].
  - unfold send_log, bind, is_set.
    destruct (stop_at w (checks s1)); simpl.
    + rewrite Hl. exact HP.
    + rewrite Hl. apply Forall_app. split; [exact HP |].
      constructor; [| constructor].
      apply Plog. unfold error_text, cancelled_text. discriminate.
Qed.

Lemma attempt_never_done : ~ In Done (chan (snd (attempt w c at_try))).
Proof.
  intros Hin.
  assert (H : Forall (fun m => m <> Done) (chan (snd (attempt w c at_try)))).
  { apply post_attempt; intros; discriminate. }
  rewrite List.Forall_forall in H. exact (H _ Hin eq_refl).
Qed.

Lemma sent_completes_once : completes_once (sent w c).
Proof.
  exists (chan (snd (attempt w c at_try))).
  split; [apply sent_finally | apply attempt_never_done].
Qed.

(** The handler of [Exception], when it reads the flag clear. *)
Lemma error_is_logged e :
  body_result w c = Raise (Exception e) ->
  stop_at w (checks_in_body w c) = false ->
  exists before : list msg,
    sent w c = before ++ [Log (error_text w e); Done].
Proof.
  intros Hb Hclear. rewrite sent_finally.
  unfold attempt, try_except, body_result, checks_in_body in *.
  destruct (body w c at_try) as [r s1]. simpl in Hb, Hclear. subst r.
  unfold send_log, bind, is_set. rewrite Hclear. simpl.
  exists (chan s1). rewrite <- app_assoc. reflexivity.
Qed.

Lemma error_text_contains e : contains e (error_text w e).
Proof.
  exists "❌ Ошибка: ", (Py.nl +:+ format_exc w). reflexivity.
Qed.

End Run.

(** A run that read the flag got past the import. *)
Lemma reads_need_import (w : world) (c : cfg) :
  0 < checks (snd (run w c)) -> import_transformers w = Returns.
Proof.
  destruct (import_transformers w) as [| e] eqn:Himp; [reflexivity |].
  rewrite (run_without_import w c e Himp). simpl. lia.
Qed.

(** C1, as the code has it: every run of the worker that gets past
    the import at the head of the function, however its body ends, sends
    exactly one completion message, and that message is the last one;
    and when the body raises an [Exception] and the handler reads the
    cancellation flag clear, the message just before it is the log
    message of the handler, which contains the text of the error. *)
Theorem worker_completion (w : world) (c : cfg) :
  import_transformers w = Returns ->
  completes_once (sent w c)
  /\ (forall e,
        body_result w c = Raise (Exception e) ->
        stop_at w (checks_in_body w c) = false ->
        exists before : list msg,
          sent w c = before ++ [Log (error_text w e); Done]
          /\ contains e (error_text w e)).
Proof.
  intros Himp. split.
  - apply sent_completes_once. exact Himp.
  - intros e Hb Hclear.
    destruct (error_is_logged w c Himp e Hb Hclear) as [before Hsent].
    exists before. split; [exact Hsent | apply error_text_contains].
Qed.

Lemma worker_completion_witness :
  import_transformers Scenario.broken_world = Returns
  /\ body_result Scenario.broken_world Scenario.text_job
     = Raise (Exception "boom")
  /\ stop_at Scenario.broken_world
       (checks_in_body Scenario.broken_world Scenario.text_job) = false
  /\ exists before : list msg,
       sent Scenario.broken_world Scenario.text_job
       = before ++ [Log (error_text Scenario.broken_world "boom"); Done].
Proof.
  split; [reflexivity | split; [reflexivity | split; [reflexivity |]]].
  destruct (worker_completion Scenario.broken_world Scenario.text_job eq_refl)
    as [_ H].
  destruct (H "boom" eq_refl eq_refl) as [before [Hsent _]].
  exists before. exact Hsent.
Defined.

(** C1, as the specification words it, fails twice.  Without the
    [transformers] package the worker dies at the import, outside the
    [try], and sends no completion message.  And when the tokenizer
    cannot be loaded and the flag is set while the loader runs, the
    handler of [Exception], whose [send_log] reads the flag first, sends
    no log message. *)
Lemma completion_contract_fails :
  ~ completion_contract Scenario.no_transformers Scenario.text_job
  /\ ~ completion_contract Scenario.broken_then_stopped Scenario.text_job.
Proof.
  split.
  - intros [(before & Hsent & _) _].
    destruct before; discriminate Hsent.
  - intros [_ H].
    destruct (H "boom" eq_refl) as (before & text & Hsent & _).
    apply (f_equal (@rev msg)) in Hsent.
    rewrite rev_app_distr in Hsent. vm_compute in Hsent. discriminate.
Qed.

(** What these two runs send. *)
Example no_transformers_run :
  run Scenario.no_transformers Scenario.text_job
  = (Raise (Exception "No module named 'transformers'"), at_try).
Proof. reflexivity. Qed.

Example broken_then_stopped_sent :
  sent Scenario.broken_then_stopped Scenario.text_job =
    [ Log "▶️ Начало конвертации: org/model-a"; Status "Инициализация";
      Progress 0 ""; Log "🔄 Автоматический выбор устройства";
      Status "Загрузка модели"; Progress 15 "";
      Status "Загрузка токенизатора"; Progress 40 ""; Done ].
Proof. reflexivity. Qed.

End Completion.

(** ** Cooperative cancellation *)

Module Cancellation.

Import Worker Spec Logic Completion.

Section Flag.

Variable w : world.
Variable n : nat.
Hypothesis Hset : set_from w n.

Lemma clear_before k : stop_at w k = false -> k < n.
Proof.
  intros Hk. destruct (Nat.lt_ge_cases k n) as [|Hge]; [assumption |].
  rewrite (Hset k Hge) in Hk. discriminate.
Qed.

Lemma obeys_ret {A} (a : A) : obeys n (ret a).
Proof. intros s r s' E. inversion E; subst. split; lia. Qed.

Lemma obeys_raise {A} (e : exn) : obeys n (@raise A e).
Proof. intros s r s' E. inversion E; subst. split; lia. Qed.

Lemma obeys_conn_send m : obeys n (conn_send m).
Proof. intros s r s' E. inversion E; subst. simpl. split; lia. Qed.

Lemma obeys_ext k o : obeys n (ext k o).
Proof.
  intros s r s' E. unfold ext in E.
  destruct o; inversion E; subst; simpl; split; lia.
Qed.

Lemma obeys_index_last l : obeys n (index_last l).
Proof. unfold index_last. destruct (last l); [apply obeys_ret | apply obeys_raise]. Qed.

Lemma obeys_bind {A B} (m : W A) (k : A -> W B) :
  obeys n m -> (forall a, obeys n (k a)) -> obeys n (bind m k).
Proof.
  intros Hm Hk s r s' E. unfold bind in E.
  destruct (m s) as [[a | e] s1] eqn:Em; destruct (Hm _ _ _ Em) as [L1 K1].
  - destruct (Hk a _ _ _ E) as [L2 K2]. split; [lia |].
    intros Hlt Hn. destruct (Nat.eq_dec (checks s1) (checks s')) as [Heq | Hne].
    + rewrite <- Heq in Hn. assert (X := K1 ltac:(lia) Hn). discriminate.
    + apply K2; lia.
  - inversion E; subst. split; [assumption |].
    intros Hlt Hn. assert (X := K1 Hlt Hn). inversion X. reflexivity.
Qed.

(** A guarded send: the read that finds the flag set raises. *)
Lemma obeys_guarded (m : msg) :
  obeys n (b <- is_set w ;; if b then raise KeyboardInterrupt else conn_send m).
Proof.
  intros s r s' E. unfold bind, is_set in E.
  destruct (stop_at w (checks s)) eqn:Hk; inversion E; subst; simpl.
  - split; [lia | reflexivity].
  - apply clear_before in Hk. split; [lia | intros _ Hn; lia].
Qed.

Lemma reads_guarded (m : msg) :
  reads (b <- is_set w ;; if b then raise KeyboardInterrupt else conn_send m).
Proof.
  intros s r s' E. unfold bind, is_set in E.
  destruct (stop_at w (checks s)); inversion E; subst; simpl; lia.
Qed.

Lemma obeys_send_log t : obeys n (send_log w t).
Proof. apply obeys_guarded. Qed.

Lemma obeys_send_status t : obeys n (send_status w t).
Proof. apply obeys_guarded. Qed.

Lemma obeys_send_progress pct stage : obeys n (send_progress w pct stage).
Proof. apply obeys_guarded. Qed.

Lemma reads_send_log t : reads (send_log w t).
Proof. apply reads_guarded. Qed.

(** A computation that starts with a read and never unreads. *)
Lemma reads_bind {A B} (m : W A) (k : A -> W B) :
  reads m -> (forall a, obeys n (k a)) -> reads (bind m k).
Proof.
  intros Hm Hk s r s' E. unfold bind in E.
  destruct (m s) as [[a | e] s1] eqn:Em; pose proof (Hm _ _ _ Em).
  - destruct (Hk a _ _ _ E). lia.
  - inversion E; subst. assumption.
Qed.

Lemma obeys_try_except_Exception {A} (m h : W A) :
  obeys n m -> obeys n h -> obeys n (try_except_Exception m h).
Proof.
  intros Hm Hh s r s' E. unfold try_except_Exception in E.
  destruct (m s) as [[a | [| t]] s1] eqn:Em; destruct (Hm _ _ _ Em) as [L1 K1];
    try (inversion E; subst; split; assumption).
  destruct (Hh _ _ _ E) as [L2 K2]. split; [lia |].
  intros Hlt Hn. destruct (Nat.eq_dec (checks s1) (checks s')) as [Heq | Hne].
  - rewrite <- Heq in Hn. assert (X := K1 ltac:(lia) Hn). discriminate.
  - apply K2; lia.
Qed.

(** A handler that catches [KeyboardInterrupt] has to read the flag
    again for the interrupt not to be lost. *)
Lemma obeys_try_except_all {A} (m h : W A) :
  obeys n m -> obeys n h -> reads h -> obeys n (try_except_all m h).
Proof.
  intros Hm Hh Hr s r s' E. unfold try_except_all in E.
  destruct (m s) as [[a | e] s1] eqn:Em; destruct (Hm _ _ _ Em) as [L1 K1].
  - inversion E; subst; split; assumption.
  - destruct (Hh _ _ _ E) as [L2 K2]. pose proof (Hr _ _ _ E).
    split; [lia | intros _ Hn; apply K2; assumption].
Qed.

Lemma obeys_try_except {A} (m h1 : W A) (h2 : string -> W A) :
  obeys n m -> obeys n h1 -> reads h1 ->
  (forall e, obeys n (h2 e)) -> (forall e, reads (h2 e)) ->
  obeys n (try_except m h1 h2).
Proof.
  intros Hm H1 R1 H2 R2 s r s' E. unfold try_except in E.
  destruct (m s) as [[a | [| t]] s1] eqn:Em; destruct (Hm _ _ _ Em) as [L1 K1].
  - inversion E; subst; split; assumption.
  - destruct (H1 _ _ _ E) as [L2 K2]. pose proof (R1 _ _ _ E).
    split; [lia | intros _ Hn; apply K2; assumption].
  - destruct (H2 t _ _ _ E) as [L2 K2]. pose proof (R2 t _ _ _ E).
    split; [lia | intros _ Hn; apply K2; assumption].
Qed.

Ltac obey :=
  lazymatch goal with
  | |- obeys _ (bind _ _) => apply obeys_bind; [obey | intros ?; obey]
  | |- obeys _ (ret _) => apply obeys_ret
  | |- obeys _ (raise _) => apply obeys_raise
  | |- obeys _ (send_log _ _) => apply obeys_send_log
  | |- obeys _ (send_status _ _) => apply obeys_send_status
  | |- obeys _ (send_progress _ _ _) => apply obeys_send_progress
  | |- obeys _ (ext _ _) => apply obeys_ext
  | |- obeys _ (index_last _) => apply obeys_index_last
  | |- obeys _ (try_except_Exception _ _) =>
      apply obeys_try_except_Exception; obey
  | |- obeys _ (try_except_all _ (bind (send_log _ _) _)) =>
      apply obeys_try_except_all;
      [obey | obey | apply reads_bind; [apply reads_send_log | intros ?; obey]]
  | |- obeys _ (if ?b then _ else _) => destruct b; obey
  | |- obeys _ (choose_device _ _) => unfold choose_device; obey
  | |- obeys _ (load_processor _ _) => unfold load_processor; obey
  | |- obeys _ (load_model _ _ _ _) => unfold load_model; obey
  end.

Lemma obeys_body c : obeys n (body w c).
Proof. unfold body. obey. Qed.

Lemma obeys_attempt c : obeys n (attempt w c).
Proof.
  unfold attempt. apply obeys_try_except.
  - apply obeys_body.
  - apply obeys_send_log.
  - apply reads_send_log.
  - intros e. apply obeys_send_log.
  - intros e. apply reads_send_log.
Qed.

(** A run cancelled mid-run dies of the interrupt. *)
Lemma cancelled_run_raises c :
  n < checks (snd (run w c)) -> fst (run w c) = Raise KeyboardInterrupt.
Proof.
  intros Hn.
  assert (Himp : import_transformers w = Returns)
    by (apply (reads_need_import w c); lia).
  revert Hn. rewrite checks_finally, result_finally by exact Himp. intros Hn.
  destruct (attempt w c at_try) as [r s1] eqn:E.
  destruct (obeys_attempt c _ _ _ E) as [_ K]. simpl in *.
  apply K; lia.
Qed.

(** The handler of [KeyboardInterrupt] gets its message through only
    when its own read finds the flag clear: then no read of the run was
    the [n]-th or a later one. *)
Lemma cancelled_log_only_when_clear c :
  In (Log cancelled_text) (chan (snd (attempt w c at_try))) ->
  checks (snd (attempt w c at_try)) <= n.
Proof.
  intros Hin.
  destruct (Nat.le_gt_cases (checks (snd (attempt w c at_try))) n)
    as [| Hgt]; [assumption | exfalso].
  assert (H : Forall (fun m => m <> Log cancelled_text)
                (chan (snd (attempt w c at_try)))).
  { apply post_attempt; try (intros; discriminate).
    - intros t Ht Heq. inversion Heq. contradiction.
    - intros Hclear Hkbd. exfalso.
      unfold attempt, try_except, checks_in_body, body_result in *.
      destruct (body w c at_try) as [r s1]. simpl in *. subst r.
      unfold send_log, bind, is_set in Hgt. rewrite Hclear in Hgt. simpl in Hgt.
      apply clear_before in Hclear. lia. }
  rewrite List.Forall_forall in H. exact (H _ Hin eq_refl).
Qed.

End Flag.

(** C2, on the code: in every run in which the cancellation flag is set
    mid-run (from some read on, and read at least once after that), the
    worker sends no "cancelled" log message: the handler of
    [KeyboardInterrupt] reads the flag again before it sends, and is
    interrupted itself.  The completion message is still sent, once and
    last, and the interrupt leaves the worker uncaught. *)
Theorem cancellation_is_not_logged (w : world) (c : cfg) (n : nat) :
  cancelled_mid_run w c n ->
  fst (run w c) = Raise KeyboardInterrupt
  /\ ~ In (Log cancelled_text) (sent w c)
  /\ completes_once (sent w c).
Proof.
  intros [Hset Hn].
  assert (Himp : import_transformers w = Returns)
    by (apply (reads_need_import w c); lia).
  split; [| split].
  - eapply cancelled_run_raises; eassumption.
  - rewrite sent_finally by exact Himp. intros Hin. apply in_app_or in Hin.
    destruct Hin as [Hin | [Heq | []]]; [| discriminate].
    pose proof (cancelled_log_only_when_clear w n Hset c Hin) as Hle.
    rewrite checks_finally in Hn by exact Himp. lia.
  - apply sent_completes_once. exact Himp.
Qed.

Lemma stopped_world_is_cancelled :
  cancelled_mid_run Scenario.stopped_world Scenario.text_job 5.
Proof.
  split.
  - intros k Hk. apply Nat.leb_le. exact Hk.
  - vm_compute. lia.
Defined.

Lemma cancellation_is_not_logged_witness :
  cancelled_mid_run Scenario.stopped_world Scenario.text_job 5
  /\ fst (run Scenario.stopped_world Scenario.text_job) = Raise KeyboardInterrupt
  /\ ~ In (Log cancelled_text) (sent Scenario.stopped_world Scenario.text_job).
Proof.
  split; [exact stopped_world_is_cancelled |].
  destruct (cancellation_is_not_logged Scenario.stopped_world Scenario.text_job 5
              stopped_world_is_cancelled) as (Hr & Hlog & _).
  split; [exact Hr | exact Hlog].
Defined.

(** The run of that scenario, in full: the user stops the job while the
    model loads. *)
Example stopped_world_run :
  run Scenario.stopped_world Scenario.text_job =
    (Raise KeyboardInterrupt,
     {| chan :=
          [ Log "▶️ Начало конвертации: org/model-a"; Status "Инициализация";
            Progress 0 ""; Log "🔄 Автоматический выбор устройства";
            Status "Загрузка модели"; Done ];
        calls :=
          [ ImportTransformers; Mkdir (Py.Path "./output") true;
            NewBnbConfig (make_bnb_config Scenario.stopped_world "auto");
            ConnClose ];
        checks := 7 |}).
Proof. reflexivity. Qed.

(** The handler does get its message through when the interrupt is not
    the flag's: with the flag clear and [KeyboardInterrupt] raised by a
    call, the message is sent. *)
Example interrupt_without_flag :
  sent (Scenario.calm Scenario.never Returns (Raises KeyboardInterrupt))
    Scenario.text_job =
    [ Log "▶️ Начало конвертации: org/model-a"; Status "Инициализация";
      Progress 0 ""; Log "🔄 Автоматический выбор устройства";
      Status "Загрузка модели"; Progress 15 "";
      Status "Загрузка токенизатора"; Progress 40 "";
      Log cancelled_text; Done ].
Proof. reflexivity. Qed.

End Cancellation.

(** ** Device placement and quantization *)

Module Placement.

Import Worker Spec Logic Completion.

Section Calls.

Variable w : world.
Variable c : cfg.
Variable Q : call -> Prop.

Hypothesis Q_other :
  forall k,
    match k with
    | LoadImageTextToText _ _ _ _ | LoadCausalLM _ _ _ _ | NewBnbConfig _ => True
    | _ => Q k
    end.
Hypothesis Q_bnb : Q (NewBnbConfig (make_bnb_config w (directive c))).
Hypothesis Q_vision :
  Q (LoadImageTextToText (TARGET_MODEL_URL c)
       (quantization_for (directive c) (make_bnb_config w (directive c)))
       (directive c) (dtype_for (directive c))).
Hypothesis Q_causal :
  Q (LoadCausalLM (TARGET_MODEL_URL c)
       (quantization_for (directive c) (make_bnb_config w (directive c)))
       (directive c) (dtype_for (directive c))).

(** Every call of a run is one the body makes with the directive of
    the configuration, or the closing of the connection. *)
Lemma called_all : Forall Q (called w c).
Proof.
  destruct (import_transformers w) as [| e] eqn:Himp.
  - rewrite (called_finally w c Himp). apply Forall_app. split.
    + assert (H : post any Q any (attempt w c)).
      { unfold attempt. apply post_try_except.
        - apply post_body; try (intros; exact I); try assumption.
          intros k. specialize (Q_other k). destruct k; auto.
        - apply post_send_log. exact I.
        - intros e. apply post_send_log. exact I. }
      destruct (attempt w c at_try) as [r s1] eqn:E.
      destruct (H _ _ _ E) as [(l & cl & _ & Hcl & _ & HQ) _].
      simpl in *. rewrite Hcl.
      constructor; [exact (Q_other ImportTransformers) | exact HQ].
    + constructor; [exact (Q_other ConnClose) | constructor].
  - unfold called. rewrite (run_without_import w c e Himp). simpl.
    constructor; [exact (Q_other ImportTransformers) | constructor].
Qed.

End Calls.

(** Every loader is called with the directive of the configuration. *)
Lemma loaders_get_directive (w : world) (c : cfg) :
  Forall (eq (directive c)) (device_maps (called w c)).
Proof.
  unfold device_maps. apply List.Forall_flat_map.
  apply called_all; try (intros []; simpl); simpl; auto.
Qed.


End Placement.

(** ** The supervisor *)

Module Supervisor.

Import Gui.

(** *** Starting a job *)

(** C3: when the URL field holds nothing but white space, [start] shows
    the error box and returns: the state is the one before but for the
    box; no worker is spawned, [self.proc] is the one before, and the
    two buttons, the progress bar and the status line are untouched. *)
Theorem start_rejects_missing_url (g : gui) :
  Py.strip (url_var g) = "" ->
  start g = do (showerror "Ошибка" "Пожалуйста, укажите URL модели") g
  /\ effects (start g)
     = effects g ++ [showerror "Ошибка" "Пожалуйста, укажите URL модели"]
  /\ proc (start g) = proc g
  /\ start_btn (start g) = start_btn g
  /\ stop_btn (start g) = stop_btn g
  /\ progress (start g) = progress g
  /\ status_text (start g) = status_text g.
Proof.
  intros Hurl. unfold start. rewrite Hurl. simpl. repeat split.
Qed.

Lemma start_rejects_missing_url_witness :
  Py.strip (url_var (set_url_var "   " build_ui)) = ""
  /\ effects (start (set_url_var "   " build_ui))
     = [showerror "Ошибка" "Пожалуйста, укажите URL модели"]
  /\ proc (start (set_url_var "   " build_ui)) = None
  /\ start_btn (start (set_url_var "   " build_ui)) = normal.
Proof.
  split; [reflexivity |].
  destruct (start_rejects_missing_url (set_url_var "   " build_ui) eq_refl)
    as (_ & He & Hp & Hb & _).
  split; [exact He | split; [exact Hp | exact Hb]].
Defined.

(** With a URL, [start] spawns a worker on the configuration it
    makes, and switches the buttons. *)
Lemma start_spawns (g : gui) :
  Py.strip (url_var g) <> "" ->
  proc (start g) = Some (make_config (Py.strip (url_var g)) g)
  /\ effects (start g) = effects g ++ [Spawn (make_config (Py.strip (url_var g)) g)]
  /\ start_btn (start g) = disabled
  /\ stop_btn (start g) = normal
  /\ stop_evt (start g) = false.
Proof.
  intros Hurl. unfold start, Py.truthy.
  destruct (String.eqb_spec (Py.strip (url_var g)) "") as [E | _];
    [contradiction |].
  simpl. repeat split.
Qed.

(** *** The device selection *)

(** What the loaders get for each selection: "cpu" for "cpu", and
    "auto" for everything else the combobox offers. *)
Lemma directive_of_selection (url : string) (g : gui) :
  Spec.directive (make_config url g)
  = if String.eqb (device_var g) "cpu" then "cpu"
    else if String.eqb (device_var g) "cuda" then "cuda"
    else "auto".
Proof.
  unfold Spec.directive, make_config, device_map_of.
  cbn [Worker.FORCE_CPU Worker.DEVICE Py.mem existsb].
  destruct (String.eqb (device_var g) "cpu") eqn:Hcpu; [reflexivity |].
  destruct (String.eqb (device_var g) "cuda") eqn:Hcuda; simpl.
  - apply String.eqb_eq in Hcuda. rewrite Hcuda. reflexivity.
  - reflexivity.
Qed.

(** C4 on the code: with the selection "gpu", the configuration [start]
    hands to the worker carries the device "auto", not "cuda": "gpu" is
    not one of the two names [start] lets through.  The worker then
    settles on the directive "auto", and every loader it calls gets
    "auto" as its [device_map]. *)
Theorem gpu_selection_is_automatic (g : gui) (w : Worker.world) :
  device_var g = "gpu" ->
  Py.strip (url_var g) <> "" ->
  exists config : Worker.cfg,
    proc (start g) = Some config
    /\ Worker.DEVICE config = "auto"
    /\ Worker.FORCE_CPU config = false
    /\ Spec.directive config = "auto"
    /\ Forall (eq "auto") (Spec.device_maps (Worker.called w config)).
Proof.
  intros Hdev Hurl. exists (make_config (Py.strip (url_var g)) g).
  destruct (start_spawns g Hurl) as (Hproc & _).
  assert (Hdir : Spec.directive (make_config (Py.strip (url_var g)) g) = "auto").
  { rewrite directive_of_selection, Hdev. reflexivity. }
  split; [exact Hproc |].
  split; [unfold make_config; rewrite Hdev; reflexivity |].
  split; [unfold make_config; rewrite Hdev; reflexivity |].
  split; [exact Hdir |].
  rewrite <- Hdir. apply Placement.loaders_get_directive.
Qed.

Lemma gpu_selection_is_automatic_witness :
  device_var build_ui = "gpu"
  /\ Py.strip (url_var build_ui) <> ""
  /\ exists config : Worker.cfg,
       proc (start build_ui) = Some config
       /\ Worker.DEVICE config = "auto"
       /\ Forall (eq "auto")
            (Spec.device_maps (Worker.called Scenario.quiet_world config)).
Proof.
  split; [reflexivity |]. split; [discriminate |].
  destruct (gpu_selection_is_automatic build_ui Scenario.quiet_world eq_refl)
    as (config & Hp & Hd & _ & _ & Hl); [discriminate |].
  exists config. split; [exact Hp | split; [exact Hd | exact Hl]].
Defined.

(** The default session, started as it is: the selection is "gpu", the
    worker logs the automatic choice and loads with "auto". *)
Example default_session_loads_auto :
  proc (start build_ui) = Some Scenario.vision_job
  /\ Worker.called Scenario.quiet_world Scenario.vision_job =
     [ Worker.ImportTransformers;
       Worker.Mkdir (Py.Path "./output") true;
       Worker.NewBnbConfig (Worker.make_bnb_config Scenario.quiet_world "auto");
       Worker.LoadImageTextToText "numind/NuMarkdown-8B-Thinking"
         (Some (Worker.make_bnb_config Scenario.quiet_world "auto")) "auto" None;
       Worker.LoadTokenizer "numind/NuMarkdown-8B-Thinking";
       Worker.LoadImageProcessor "numind/NuMarkdown-8B-Thinking";
       Worker.EmptyCache; Worker.GcCollect;
       Worker.Mkdir (Py.truediv (Py.Path "./output") "NuMarkdown-8B-Thinking-bnb4") false;
       Worker.SaveModel (Py.truediv (Py.Path "./output") "NuMarkdown-8B-Thinking-bnb4") true;
       Worker.SaveTokenizer (Py.truediv (Py.Path "./output") "NuMarkdown-8B-Thinking-bnb4");
       Worker.SaveImageProcessor
         (Py.truediv (Py.Path "./output") "NuMarkdown-8B-Thinking-bnb4");
       Worker.ConnClose ]
  /\ In (Worker.Log "🔄 Автоматический выбор устройства")
       (Worker.sent Scenario.quiet_world Scenario.vision_job).
Proof.
  split; [reflexivity | split; [reflexivity |]].
  vm_compute. tauto.
Qed.

(** *** The quantization selector *)



(** *** The polling loop *)

Lemma drain_app clock k (l1 l2 : list Worker.msg) g :
  drain clock k (l1 ++ l2) g = drain clock (k + length l1) l2 (drain clock k l1 g).
Proof.
  revert k g. induction l1 as [| m l1 IH]; intros k g; simpl.
  - rewrite Nat.add_0_r. reflexivity.
  - rewrite IH. f_equal. lia.
Qed.

(** After one cycle over what a worker sent, the last message handled
    is the completion message. *)
Lemma check_pipe_run (w : Worker.world) (c : Worker.cfg) clock g :
  Worker.import_transformers w = Worker.Returns ->
  exists ts g0, check_pipe clock (Worker.sent w c) g = receive ts Worker.Done g0.
Proof.
  intros Himp.
  destruct (Completion.sent_completes_once w c Himp) as (before & Hsent & _).
  rewrite Hsent. unfold check_pipe. rewrite drain_app. simpl.
  exists (clock (length before)), (drain clock 0 before g). reflexivity.
Qed.

(** C8: the branch of the completion message enables the start button
    and disables the stop button, whatever the state; and so, for every
    run of a worker that got as far as its [try], however it ended, one
    polling cycle over what the worker sent leaves the start button
    enabled and the stop button disabled. *)
Theorem done_resets_interface :
  (forall ts g,
     start_btn (receive ts Worker.Done g) = normal
     /\ stop_btn (receive ts Worker.Done g) = disabled)
  /\ (forall (w : Worker.world) (c : Worker.cfg) clock g,
        Worker.import_transformers w = Worker.Returns ->
        start_btn (check_pipe clock (Worker.sent w c) g) = normal
        /\ stop_btn (check_pipe clock (Worker.sent w c) g) = disabled).
Proof.
  split.
  - intros ts g. split; reflexivity.
  - intros w c clock g Himp.
    destruct (check_pipe_run w c clock g Himp) as (ts & g0 & ->).
    split; reflexivity.
Qed.

Lemma done_resets_interface_witness :
  Worker.import_transformers Scenario.stopped_world = Worker.Returns
  /\ start_btn
       (check_pipe (fun _ => "12:00:00")
          (Worker.sent Scenario.stopped_world Scenario.text_job) (start build_ui))
     = normal
  /\ stop_btn
       (check_pipe (fun _ => "12:00:00")
          (Worker.sent Scenario.stopped_world Scenario.text_job) (start build_ui))
     = disabled.
Proof.
  split; [reflexivity |].
  destruct done_resets_interface as [_ H].
  exact (H Scenario.stopped_world Scenario.text_job (fun _ => "12:00:00")
           (start build_ui) eq_refl).
Defined.

(** C10: the branch of the completion message sets the status line to
    the success text, in the success colour, and shows the success box,
    whatever the state; and so, for every run of a worker that got as
    far as its [try], whether its body returned, raised or was
    interrupted, one polling cycle over what the worker sent ends with
    the success status and the success box: the message has no field
    that could tell the outcomes apart. *)
Theorem done_always_reports_success :
  (forall ts g,
     status_text (receive ts Worker.Done g) = "✅ Конвертация завершена успешно!"
     /\ status_fg (receive ts Worker.Done g) = "#28a745"
     /\ effects (receive ts Worker.Done g)
        = effects g
          ++ [showinfo "Успех" "Модель успешно сконвертирована в bnb4 формат!"])
  /\ (forall (w : Worker.world) (c : Worker.cfg) clock g,
        Worker.import_transformers w = Worker.Returns ->
        status_text (check_pipe clock (Worker.sent w c) g)
        = "✅ Конвертация завершена успешно!"
        /\ status_fg (check_pipe clock (Worker.sent w c) g) = "#28a745"
        /\ last (effects (check_pipe clock (Worker.sent w c) g))
           = Some (showinfo "Успех" "Модель успешно сконвертирована в bnb4 формат!")).
Proof.
  split.
  - intros ts g. repeat split.
  - intros w c clock g Himp.
    destruct (check_pipe_run w c clock g Himp) as (ts & g0 & ->).
    split; [reflexivity | split; [reflexivity |]].
    simpl. apply last_snoc.
Qed.

Lemma done_always_reports_success_witness :
  Worker.import_transformers Scenario.broken_world = Worker.Returns
  /\ Worker.body_result Scenario.broken_world Scenario.text_job
     = Worker.Raise (Worker.Exception "boom")
  /\ status_text
       (check_pipe (fun _ => "12:00:00")
          (Worker.sent Scenario.broken_world Scenario.text_job) (start build_ui))
     = "✅ Конвертация завершена успешно!"
  /\ last
       (effects
          (check_pipe (fun _ => "12:00:00")
             (Worker.sent Scenario.broken_world Scenario.text_job)
             (start build_ui)))
     = Some (showinfo "Успех" "Модель успешно сконвертирована в bnb4 формат!").
Proof.
  split; [reflexivity |]. split; [reflexivity |].
  destruct done_always_reports_success as [_ H].
  destruct (H Scenario.broken_world Scenario.text_job (fun _ => "12:00:00")
              (start build_ui) eq_refl) as (Hs & _ & Hbox).
  split; [exact Hs | exact Hbox].
Defined.

(** A run that fails and a run that is cancelled, as the supervisor
    shows them. *)
Example failed_run_shown_as_success :
  Worker.body_result Scenario.broken_world Scenario.text_job
  = Worker.Raise (Worker.Exception "boom")
  /\ status_text
       (check_pipe (fun _ => "12:00:00")
          (Worker.sent Scenario.broken_world Scenario.text_job) (start build_ui))
     = "✅ Конвертация завершена успешно!".
Proof. split; reflexivity. Qed.

Example cancelled_run_shown_as_success :
  Worker.body_result Scenario.stopped_world Scenario.text_job
  = Worker.Raise Worker.KeyboardInterrupt
  /\ status_text
       (check_pipe (fun _ => "12:00:00")
          (Worker.sent Scenario.stopped_world Scenario.text_job) (start build_ui))
     = "✅ Конвертация завершена успешно!".
Proof. split; reflexivity. Qed.

End Supervisor.

(** ** The settings file *)

Module Persistence.

Import Gui Settings.

(** [on_model_change] writes the URL field and the info line only. *)
Lemma on_model_change_frame (g : gui) :
  model_var (on_model_change g) = model_var g
  /\ out_var (on_model_change g) = out_var g
  /\ ctx_var (on_model_change g) = ctx_var g
  /\ device_var (on_model_change g) = device_var g
  /\ safe_ser_var (on_model_change g) = safe_ser_var g
  /\ effects (on_model_change g) = effects g.
Proof.
  unfold on_model_change. destruct (get_model_info g); repeat split.
Qed.

(** The values of a fresh session before the file is read. *)
Lemma default_values :
  values_of build_ui = ("  NuMarkdown-8B-Thinking", "./output", 4096%Z, "gpu", true).
Proof. reflexivity. Qed.

Lemma settings_of_lookup (g : gui) :
  settings_of g !! "model" = Some (PStr (model_var g))
  /\ settings_of g !! "output_path" = Some (PStr (out_var g))
  /\ settings_of g !! "context_length" = Some (PInt (ctx_var g))
  /\ settings_of g !! "device" = Some (PStr (device_var g))
  /\ settings_of g !! "safe_serialization" = Some (PBool (safe_ser_var g)).
Proof.
  unfold settings_of. repeat split;
    repeat (rewrite lookup_insert_ne by discriminate);
    apply lookup_insert_eq.
Qed.

(** The model of a session is always an entry of the combobox: it is
    one after [build_ui], and [load_settings] only sets an entry. *)
Lemma session_model_known (f : file) (g' : gui) :
  new_session f = Some g' -> Py.mem (model_var g') combobox_values = true.
Proof.
  unfold new_session.
  destruct f as [| e | e | t | settings]; cbn [load_settings];
    try (intros H; injection H as <-; reflexivity).
  unfold apply_settings.
  set (g1 := match model_known settings with
             | Some m => on_model_change (set_model_var m build_ui)
             | None => build_ui
             end).
  assert (Hg1 : Py.mem (model_var g1) combobox_values = true).
  { subst g1. unfold model_known.
    destruct (settings !! "model") as [[| | | m] |]; try reflexivity.
    destruct (Py.mem m combobox_values) eqn:Hm; [| reflexivity].
    destruct (on_model_change_frame (set_model_var m build_ui)) as (-> & _).
    exact Hm. }
  destruct (as_str (get settings "output_path" (PStr (out_var g1))));
    [| discriminate].
  cbn [mbind option_bind].
  destruct (as_int _); [| discriminate]. cbn [mbind option_bind].
  destruct (as_str _); [| discriminate]. cbn [mbind option_bind].
  destruct (as_bool _); [| discriminate]. cbn [mbind option_bind].
  intros H. injection H as <-. exact Hg1.
Qed.

(** C5: a configuration whose model is an entry of the combobox, saved
    and then loaded by a fresh session, comes back with the same model,
    output path, context length, device and serialization flag. *)
Theorem settings_round_trip (g : gui) (old : file) :
  Py.mem (model_var g) combobox_values = true ->
  exists g' : gui,
    new_session (fst (save_settings None old g)) = Some g'
    /\ values_of g' = values_of g.
Proof.
  intros Hmodel.
  destruct (settings_of_lookup g) as (Hm & Ho & Hc & Hd & Hs).
  unfold new_session, save_settings. cbn [fst load_settings].
  unfold apply_settings, model_known, get.
  rewrite Hm, Hmodel, Ho, Hc, Hd, Hs. cbn [default as_str as_int as_bool mbind option_bind].
  eexists. split; [reflexivity |].
  unfold values_of.
  cbn [model_var out_var ctx_var device_var safe_ser_var
       set_safe_ser_var set_device_var set_ctx_var set_out_var].
  destruct (on_model_change_frame (set_model_var (model_var g) build_ui))
    as (-> & _).
  reflexivity.
Qed.

Lemma settings_round_trip_witness :
  Py.mem (model_var Scenario.custom_session) combobox_values = true
  /\ exists g' : gui,
       new_session (fst (save_settings None Missing Scenario.custom_session))
       = Some g'
       /\ values_of g' = ("  Своя модель", "/srv/models", 512%Z, "cpu", false).
Proof.
  split; [reflexivity |].
  destruct (settings_round_trip Scenario.custom_session Missing eq_refl)
    as (g' & Hload & Hvalues).
  exists g'. split; [exact Hload | exact Hvalues].
Defined.

(** A file that cannot be read or parsed is reported on [sys.stdout]
    and changes nothing else. *)
Lemma report_load_frame (e : string) (g : gui) :
  values_of (report_load e g) = values_of g
  /\ effects (report_load e g)
     = effects g ++ [print ("Ошибка загрузки настроек: " +:+ e)].
Proof. split; reflexivity. Qed.




(** That file does set the device. *)
Example device_only_loaded :
  option_map values_of (new_session (Object Scenario.device_only))
  = Some ("  NuMarkdown-8B-Thinking", "./output", 4096%Z, "cpu", true).
Proof. reflexivity. Qed.

End Persistence.

(** ** The output directory *)

Module Output.

Import Worker Spec.

(** *** Segments of the URL *)

Lemma append_cons (a : ascii) (s t : string) :
  String a s +:+ t = String a (s +:+ t).
Proof. reflexivity. Qed.

Lemma append_nil_r (s : string) : s +:+ "" = s.
Proof.
  induction s as [| a s IH]; [reflexivity |].
  rewrite append_cons, IH. reflexivity.
Qed.

Lemma append_assoc (s1 s2 s3 : string) : (s1 +:+ s2) +:+ s3 = s1 +:+ s2 +:+ s3.
Proof.
  induction s1 as [| a s1 IH]; [reflexivity |].
  rewrite !append_cons, IH. reflexivity.
Qed.

Lemma split_not_nil (c : ascii) (s : string) : Py.split c s <> [].
Proof.
  destruct s as [| a s]; simpl; [discriminate |].
  destruct (Ascii.eqb a c); [discriminate |].
  destruct (Py.split c s); discriminate.
Qed.

(** Joining the segments gives the string back. *)
Lemma join_split (c : ascii) (s : string) :
  Py.join (String c "") (Py.split c s) = s.
Proof.
  induction s as [| a s IH]; simpl; [reflexivity |].
  pose proof (split_not_nil c s) as Hne.
  destruct (Ascii.eqb_spec a c) as [-> | Hac].
  - destruct (Py.split c s) as [| h t]; [contradiction |].
    simpl in *. rewrite IH. reflexivity.
  - destruct (Py.split c s) as [| h t]; [contradiction |].
    destruct t as [| h' t]; simpl in *; rewrite <- IH; reflexivity.
Qed.

(** No segment contains the separator. *)
Lemma split_no_sep (c : ascii) (s : string) :
  Forall (fun x => ~ In c (list_ascii_of_string x)) (Py.split c s).
Proof.
  induction s as [| a s IH]; simpl.
  - constructor; [simpl; tauto | constructor].
  - destruct (Ascii.eqb_spec a c) as [-> | Hac].
    + constructor; [simpl; tauto | exact IH].
    + destruct (Py.split c s) as [| h t].
      * constructor; [simpl; intuition congruence | constructor].
      * apply List.Forall_cons_iff in IH as [Hh Ht].
        constructor; [simpl; intuition congruence | exact Ht].
Qed.

Lemma join_snoc (c : string) (l : list string) (x : string) :
  l <> [] -> Py.join c (l ++ [x]) = Py.join c l +:+ c +:+ x.
Proof.
  induction l as [| a l IH]; intros Hne; [contradiction |].
  destruct l as [| b l]; [reflexivity |].
  change (Py.join c ((a :: b :: l) ++ [x]))
    with (a +:+ c +:+ Py.join c ((b :: l) ++ [x])).
  rewrite IH by discriminate.
  change (Py.join c (a :: b :: l)) with (a +:+ c +:+ Py.join c (b :: l)).
  rewrite !append_assoc. reflexivity.
Qed.

(** The last segment: what is before it is empty or ends with the
    separator. *)
Lemma split_last (c : ascii) (s : string) :
  exists pre r,
    last (Py.split c s) = Some r
    /\ s = pre +:+ r
    /\ ~ In c (list_ascii_of_string r)
    /\ (pre = "" \/ exists pre', pre = pre' +:+ String c "").
Proof.
  pose proof (split_not_nil c s) as Hne.
  pose proof (join_split c s) as Hjoin.
  pose proof (split_no_sep c s) as Hsep.
  destruct (exists_last Hne) as (init & r & Hsplit).
  rewrite Hsplit in *. apply Forall_app in Hsep as [_ Hr].
  apply List.Forall_cons_iff in Hr as [Hr _].
  destruct init as [| a init].
  - exists "", r. simpl in *. auto.
  - exists (Py.join (String c "") (a :: init) +:+ String c ""), r.
    rewrite join_snoc in Hjoin by discriminate.
    rewrite last_snoc, append_assoc. repeat split; eauto.
Qed.

(** [rstrip_char] cuts off a run of the character, and what it leaves
    does not end with it. *)
Lemma rstrip_char_spec (c : ascii) (s : string) :
  exists k,
    s = Py.rstrip_char c s +:+ string_of_list_ascii (repeat c k)
    /\ forall t, Py.rstrip_char c s <> t +:+ String c "".
Proof.
  induction s as [| a s (k & Hs & Hend)].
  - exists 0. split; [reflexivity |]. intros [| b t]; discriminate.
  - cbn [Py.rstrip_char].
    destruct (Ascii.eqb_spec a c) as [-> | Hac];
      [destruct (String.eqb_spec (Py.rstrip_char c s) "") as [He | Hne] |];
      cbn [andb].
    + exists (S k). rewrite He in Hs. split.
      * rewrite Hs at 1. reflexivity.
      * intros [| b t]; discriminate.
    + exists k. split.
      * rewrite append_cons, <- Hs. reflexivity.
      * intros [| b t] Heq.
        -- apply Hne. injection Heq as Ht. exact Ht.
        -- rewrite append_cons in Heq. injection Heq as Hb Ht.
           exact (Hend _ Ht).
    + exists k. split.
      * rewrite append_cons, <- Hs. reflexivity.
      * intros [| b t] Heq.
        -- apply Hac. injection Heq as Hb Ht. exact Hb.
        -- rewrite append_cons in Heq. injection Heq as Hb Ht.
           exact (Hend _ Ht).
Qed.

Lemma slashes_repeat (k : nat) :
  string_of_list_ascii (repeat Py.slash k) = slashes k.
Proof. induction k as [| k IH]; simpl; [reflexivity | rewrite IH; reflexivity]. Qed.

(** [url.rstrip('/').split('/')[-1]] never fails, and gives the final
    segment of the URL. *)
Lemma repo_is_final_segment (u : string) :
  exists repo, last (repo_segments u) = Some repo /\ final_segment u repo.
Proof.
  unfold repo_segments.
  destruct (rstrip_char_spec Py.slash u) as (k & Hu & Hend).
  destruct (split_last Py.slash (Py.rstrip_char Py.slash u))
    as (pre & r & Hlast & Hs & Hr & Hpre).
  exists r. split; [exact Hlast |].
  exists pre, k. rewrite <- slashes_repeat, <- append_assoc, <- Hs.
  repeat split; auto.
  intros ->. destruct Hpre as [-> | (pre' & ->)]; [reflexivity |].
  exfalso. apply (Hend pre'). rewrite Hs. apply append_nil_r.
Qed.

(** *** The path of the output directory *)

Lemma split_without_sep (c : ascii) (x : string) :
  ~ In c (list_ascii_of_string x) -> Py.split c x = [x].
Proof.
  induction x as [| a x IH]; intros Hx; [reflexivity |].
  cbn [Py.split]. simpl in Hx.
  destruct (Ascii.eqb_spec a c) as [-> | Hac]; [tauto |].
  rewrite IH by tauto. reflexivity.
Qed.

Lemma list_ascii_append (s t : string) :
  list_ascii_of_string (s +:+ t) = list_ascii_of_string s ++ list_ascii_of_string t.
Proof.
  induction s as [| a s IH]; [reflexivity |].
  rewrite append_cons. simpl. rewrite IH. reflexivity.
Qed.

Lemma dir_name_no_slash (repo : string) :
  no_slash repo -> no_slash (repo +:+ "-bnb4").
Proof.
  unfold no_slash. intros Hr. rewrite list_ascii_append.
  intros Hin. apply in_app_or in Hin as [Hin | Hin]; [tauto |].
  simpl in Hin. unfold Py.slash in Hin.
  repeat (destruct Hin as [Hin | Hin]; [discriminate |]). exact Hin.
Qed.

Lemma dir_name_is_part (repo : string) : Py.is_part (repo +:+ "-bnb4") = true.
Proof.
  destruct repo as [| a [| b repo]]; [reflexivity | |];
    rewrite !append_cons; unfold Py.is_part, Py.truthy; simpl;
    destruct (Ascii.eqb a "."); reflexivity.
Qed.

Lemma dir_name_relative (repo : string) :
  no_slash repo -> Py.startswith "/" (repo +:+ "-bnb4") = false.
Proof.
  unfold no_slash, Py.startswith. destruct repo as [| a repo]; [reflexivity |].
  intros Hr. rewrite append_cons. cbn [String.prefix].
  destruct (ascii_dec "/" a) as [<- | _]; [| reflexivity].
  exfalso. apply Hr. left. reflexivity.
Qed.

(** The directory of the run is the child of the output root that
    bears the name of the repository with "-bnb4" appended. *)
Lemma final_path_under_root (out repo : string) :
  no_slash repo ->
  Py.truediv (Py.Path out) (repo +:+ "-bnb4")
  = {| Py.root := Py.root (Py.Path out);
       Py.parts := Py.parts (Py.Path out) ++ [repo +:+ "-bnb4"] |}.
Proof.
  intros Hr. unfold Py.truediv. rewrite dir_name_relative by exact Hr.
  unfold Py.path_parts.
  rewrite split_without_sep by (apply dir_name_no_slash; exact Hr).
  cbn [List.filter]. rewrite dir_name_is_part. reflexivity.
Qed.

Lemma final_path_parent_name (out repo : string) :
  no_slash repo ->
  Py.parent (Py.truediv (Py.Path out) (repo +:+ "-bnb4")) = Py.Path out
  /\ Py.name (Py.truediv (Py.Path out) (repo +:+ "-bnb4")) = repo +:+ "-bnb4".
Proof.
  intros Hr. rewrite final_path_under_root by exact Hr.
  unfold Py.parent, Py.name. cbn [Py.root Py.parts].
  rewrite removelast_last, last_last. split; reflexivity.
Qed.

(** *** What a run that succeeds calls *)

Section Success.

Variable w : world.

Lemma bind_ok {A B} (m : W A) (k : A -> W B) s b s' :
  bind m k s = (Ok b, s') ->
  exists a s1, m s = (Ok a, s1) /\ k a s1 = (Ok b, s').
Proof.
  unfold bind. destruct (m s) as [[a | e] s1]; [eauto | discriminate].
Qed.

Lemma guarded_ok (m : msg) s u s' :
  (b <- is_set w ;; if b then raise KeyboardInterrupt else conn_send m) s
  = (Ok u, s') ->
  calls s' = calls s.
Proof.
  unfold bind, is_set. destruct (stop_at w (checks s)); intros E;
    inversion E; reflexivity.
Qed.

Lemma send_log_ok t s u s' : send_log w t s = (Ok u, s') -> calls s' = calls s.
Proof. apply guarded_ok. Qed.

Lemma send_status_ok t s u s' : send_status w t s = (Ok u, s') -> calls s' = calls s.
Proof. apply guarded_ok. Qed.

Lemma send_progress_ok p t s u s' :
  send_progress w p t s = (Ok u, s') -> calls s' = calls s.
Proof. apply guarded_ok. Qed.

Lemma ext_ok k o s u s' :
  ext k o s = (Ok u, s') -> o = Returns /\ calls s' = calls s ++ [k].
Proof.
  unfold ext. destruct o; intros E; inversion E; split; reflexivity.
Qed.

Lemma ext_raise k o s e s' :
  ext k o s = (Raise e, s') -> o <> Returns /\ calls s' = calls s ++ [k].
Proof.
  unfold ext. destruct o; intros E; inversion E; split; [discriminate | reflexivity].
Qed.

Lemma index_last_ok l s r s' :
  index_last l s = (Ok r, s') -> last l = Some r /\ s' = s.
Proof.
  unfold index_last. destruct (last l); intros E; inversion E; split; reflexivity.
Qed.

Lemma choose_device_ok c s d s' :
  choose_device w c s = (Ok d, s') -> calls s' = calls s.
Proof.
  unfold choose_device.
  destruct (FORCE_CPU c); [| destruct (String.eqb (DEVICE c) "cpu");
    [| destruct (String.eqb (DEVICE c) "cuda")]];
    intros E; apply bind_ok in E as (u & s1 & E1 & E2);
    apply send_log_ok in E1; inversion E2; subst; exact E1.
Qed.

Lemma load_model_ok c d b s u s' :
  load_model w c d b s = (Ok u, s') ->
  exists l, calls s' = calls s ++ l /\ Forall loader l.
Proof.
  unfold load_model, try_except_Exception.
  destruct (String.eqb (MODEL_TYPE c) "vision").
  - destruct (ext _ (load_image_text_to_text w) s) as [[[] | [| t]] s1] eqn:E1;
      intros E.
    + inversion E; subst. apply ext_ok in E1 as [_ E1].
      eexists. split; [exact E1 |]. repeat constructor.
    + discriminate.
    + apply ext_raise in E1 as [_ E1]. apply ext_ok in E as [_ E].
      eexists. split; [rewrite E, E1, <- app_assoc; reflexivity |].
      repeat constructor.
  - unfold raise. intros E. apply ext_ok in E as [_ E].
    eexists. split; [exact E |]. repeat constructor.
Qed.

Lemma load_processor_ok c s ip s' :
  load_processor w c s = (Ok ip, s') ->
  exists l,
    calls s' = calls s ++ l
    /\ writes l = []
    /\ ~ In GcCollect l
    /\ (ip = true <->
        In (LoadImageProcessor (TARGET_MODEL_URL c)) l
        /\ load_image_processor w = Returns).
Proof.
  unfold load_processor.
  destruct (String.eqb (MODEL_TYPE c) "vision").
  - unfold try_except_all.
    set (inner := (send_status w "Загрузка процессора изображений" ;;
                   send_progress w 55 "" ;;
                   ext (LoadImageProcessor (TARGET_MODEL_URL c))
                     (load_image_processor w) ;;
                   ret true)%worker).
    destruct (inner s) as [[b | e] s1] eqn:E1; intros E.
    + inversion E; subst. subst inner.
      apply bind_ok in E1 as (? & s2 & H1 & E1). apply send_status_ok in H1.
      apply bind_ok in E1 as (? & s3 & H2 & E1). apply send_progress_ok in H2.
      apply bind_ok in E1 as (? & s4 & H3 & E1). apply ext_ok in H3 as [Hret H3].
      inversion E1; subst.
      exists [LoadImageProcessor (TARGET_MODEL_URL c)].
      rewrite H3, H2, H1. repeat split; simpl; auto.
      intros [Hin | []]; discriminate.
    + apply bind_ok in E as (? & s2 & H1 & E). apply send_log_ok in H1.
      inversion E; subst. subst inner.
      unfold bind in E1.
      destruct (send_status w _ s) as [[? | ?] s3] eqn:H2;
        [apply send_status_ok in H2 |
         exists []; inversion E1; subst; rewrite H1, app_nil_r;
         unfold send_status, bind, is_set in H2;
         destruct (stop_at w (checks s)); inversion H2;
         repeat split; simpl; auto; intros; try discriminate; tauto].
      destruct (send_progress w 55 "" s3) as [[? | ?] s4] eqn:H3;
        [apply send_progress_ok in H3 |
         exists []; inversion E1; subst; rewrite H1, app_nil_r;
         unfold send_progress, bind, is_set in H3;
         destruct (stop_at w (checks s3)); inversion H3; subst;
         repeat split; simpl; auto; intros; try discriminate; tauto].
      destruct (ext _ (load_image_processor w) s4) as [[? | ?] s5] eqn:H4;
        [discriminate |].
      apply ext_raise in H4 as [Hraise H4]. inversion E1; subst.
      exists [LoadImageProcessor (TARGET_MODEL_URL c)].
      rewrite H1, H4, H3, H2. repeat split; simpl; auto.
      * intros [Hin | []]; discriminate.
      * discriminate.
      * intros [_ Hret]. contradiction.
  - intros E. inversion E; subst. exists []. rewrite app_nil_r.
    repeat split; simpl; auto; intros; try discriminate; tauto.
Qed.

(** One step of a body that returns: a guarded send leaves the call
    log as it is, a call adds itself. *)
Ltac next E s :=
  let H := fresh "Hc" in
  apply bind_ok in E as (? & s & H & E);
  first [ apply send_log_ok in H | apply send_status_ok in H
        | apply send_progress_ok in H | apply ext_ok in H as [_ H] ].

Lemma loaders_write_nothing (l : list call) :
  Forall loader l ->
  writes l = []
  /\ ~ In GcCollect l
  /\ forall u, ~ In (LoadImageProcessor u) l.
Proof.
  induction 1 as [| k l Hk _ (IH1 & IH2 & IH3)]; [simpl; auto |].
  destruct k; try contradiction; simpl; rewrite IH1;
    (repeat split; [intros [? | ?]; [discriminate | auto]
                   | intros u [? | ?]; [discriminate | eapply IH3; eauto]]).
Qed.

(** The calls of a body that returns, in order. *)
Lemma body_ok_calls c s' :
  body w c at_try = (Ok tt, s') ->
  exists repo lm lp lc (ip : bool),
    last (repo_segments (TARGET_MODEL_URL c)) = Some repo
    /\ Forall loader lm
    /\ writes lp = []
    /\ (ip = true <->
        In (LoadImageProcessor (TARGET_MODEL_URL c)) lp
        /\ load_image_processor w = Returns)
    /\ (lc = [] \/ lc = [EmptyCache])
    /\ let out_dir := Py.Path (OUTPUT_PATH c) in
       let final_path := Py.truediv out_dir (repo +:+ "-bnb4") in
       calls s'
       = [ImportTransformers; Mkdir out_dir true;
          NewBnbConfig (make_bnb_config w (directive c))]
         ++ lm ++ [LoadTokenizer (TARGET_MODEL_URL c)] ++ lp ++ lc
         ++ [GcCollect; Mkdir final_path false;
             SaveModel final_path (SAFE_SERIALIZATION c);
             SaveTokenizer final_path]
         ++ (if ip then [SaveImageProcessor final_path] else []).
Proof.
  intros E. unfold body in E.
  apply bind_ok in E as (repo & s0 & H0 & E).
  apply index_last_ok in H0 as [Hrepo ->]. cbv beta zeta in E.
  next E s1. next E s2. next E s3. next E s4.
  apply bind_ok in E as (d & s5 & H5 & E).
  assert (Hd : d = directive c).
  { destruct (Logic.post_choose_device w c any any
                ltac:(exact I) ltac:(exact I) ltac:(exact I) ltac:(exact I)
                _ _ _ H5) as [_ Hd].
    symmetry. apply Hd. reflexivity. }
  subst d. apply choose_device_ok in H5.
  next E s6. next E s7. next E s8.
  apply bind_ok in E as (? & s9 & H9 & E).
  apply load_model_ok in H9 as (lm & H9 & Hlm).
  next E s10. next E s11. next E s12.
  apply bind_ok in E as (ip & s13 & H13 & E).
  apply load_processor_ok in H13 as (lp & H13 & Hlp & _ & Hip).
  next E s14. next E s15.
  apply bind_ok in E as (? & s16 & H16 & E).
  assert (Hlc : exists lc, (lc = [] \/ lc = [EmptyCache])
                           /\ calls s16 = calls s15 ++ lc).
  { destruct (cuda_is_available w && negb (String.eqb (directive c) "cpu")).
    - apply ext_ok in H16 as [_ H16]. exists [EmptyCache]. auto.
    - inversion H16; subst. exists []. rewrite app_nil_r. auto. }
  destruct Hlc as (lc & Hlc & H16'). clear H16.
  next E s17. next E s18. next E s19. next E s20. next E s21. next E s22.
  apply bind_ok in E as (? & s23 & H23 & E).
  assert (H23' : calls s23
                 = calls s22
                   ++ (if ip
                       then [SaveImageProcessor
                               (Py.truediv (Py.Path (OUTPUT_PATH c))
                                  (repo +:+ "-bnb4"))]
                       else [])).
  { destruct ip.
    - apply ext_ok in H23 as [_ H23]. exact H23.
    - inversion H23; subst. rewrite app_nil_r. reflexivity. }
  clear H23. next E s24. next E s25. apply send_progress_ok in E.
  exists repo, lm, lp, lc, ip.
  split; [exact Hrepo |]. split; [exact Hlm |]. split; [exact Hlp |].
  split; [exact Hip |]. split; [exact Hlc |].
  cbv zeta. rewrite E.
  repeat match goal with
         | H : calls ?s = _ |- context [calls ?s] => rewrite H
         end.
  cbn [calls at_try]. rewrite <- !app_assoc. reflexivity.
Qed.

End Success.

Lemma writes_app (l1 l2 : list call) : writes (l1 ++ l2) = writes l1 ++ writes l2.
Proof. apply List.filter_app. Qed.

(** C7: when the worker gets past its import and the body of its [try]
    returns, the calls that write below the output root are, in order,
    the creation of one directory, the saving of the model with the
    serialization flag of the job, the saving of the tokenizer and,
    exactly when an image processor was loaded, the saving of the image
    processor, all four on the same path: the child of the output root
    whose name is the final segment of the URL, trailing slashes
    dropped, followed by "-bnb4". *)
Theorem output_directory (w : world) (c : cfg) :
  import_transformers w = Returns ->
  body_result w c = Ok tt ->
  exists repo : string,
    final_segment (TARGET_MODEL_URL c) repo
    /\ let final_path :=
         Py.truediv (Py.Path (OUTPUT_PATH c)) (repo +:+ "-bnb4") in
       Py.parent final_path = Py.Path (OUTPUT_PATH c)
       /\ Py.name final_path = repo +:+ "-bnb4"
       /\ exists ip : bool,
            writes (called w c)
            = [Mkdir final_path false;
               SaveModel final_path (SAFE_SERIALIZATION c);
               SaveTokenizer final_path]
              ++ (if ip then [SaveImageProcessor final_path] else [])
            /\ (ip = true <-> processor_loaded w c).
Proof.
  unfold body_result. intros Himp Hok.
  destruct (body w c at_try) as [r s'] eqn:E. simpl in Hok. subst r.
  destruct (body_ok_calls w c s' E)
    as (repo & lm & lp & lc & ip & Hrepo & Hlm & Hlp & Hip & Hlc & Hcalls).
  destruct (repo_is_final_segment (TARGET_MODEL_URL c)) as (repo' & Hrepo' & Hseg).
  rewrite Hrepo in Hrepo'. injection Hrepo' as <-.
  assert (Hns : no_slash repo) by (destruct Hseg as (? & ? & _ & Hns & _); exact Hns).
  destruct (final_path_parent_name (OUTPUT_PATH c) repo Hns) as [Hparent Hname].
  destruct (loaders_write_nothing lm Hlm) as (Hwm & _ & Hnm).
  assert (Hcalled : called w c = calls s' ++ [ConnClose]).
  { rewrite Completion.called_finally by exact Himp.
    unfold attempt, try_except. rewrite E. reflexivity. }
  exists repo. split; [exact Hseg |]. cbv zeta in *.
  split; [exact Hparent |]. split; [exact Hname |].
  exists ip. split.
  - rewrite Hcalled, Hcalls, !writes_app, Hwm, Hlp.
    assert (Hwc : writes lc = []) by (destruct Hlc as [-> | ->]; reflexivity).
    rewrite Hwc. destruct ip; reflexivity.
  - rewrite Hip. unfold processor_loaded. rewrite Hcalled, Hcalls. split.
    + intros [Hin Hret]. split; [| exact Hret].
      rewrite !in_app_iff. tauto.
    + intros [Hin Hret]. split; [| exact Hret].
      repeat match goal with
             | H : In _ (_ ++ _) |- _ => apply in_app_or in H as [H | H]
             end;
        try assumption;
        try (exfalso; eapply Hnm; eassumption);
        try (destruct Hlc as [-> | ->]); try (destruct ip);
        simpl in Hin; intuition discriminate.
Qed.

Lemma output_directory_witness :
  import_transformers Scenario.quiet_world = Returns
  /\ body_result Scenario.quiet_world Scenario.text_job = Ok tt
  /\ writes (called Scenario.quiet_world Scenario.text_job)
     = [Mkdir (Py.truediv (Py.Path "./output") "model-a-bnb4") false;
        SaveModel (Py.truediv (Py.Path "./output") "model-a-bnb4") true;
        SaveTokenizer (Py.truediv (Py.Path "./output") "model-a-bnb4")]
  /\ exists repo : string, final_segment "org/model-a" repo.
Proof.
  split; [reflexivity |]. split; [reflexivity |]. split; [reflexivity |].
  destruct (output_directory Scenario.quiet_world Scenario.text_job
              eq_refl eq_refl) as (repo & Hseg & _).
  exists repo. exact Hseg.
Defined.

(** The scenario of the specification: the source "org/model-a" and the
    root "./output" give the directory "output/model-a-bnb4". *)
Example scenario_directory :
  last (repo_segments "org/model-a") = Some "model-a"
  /\ Py.path_str (Py.truediv (Py.Path "./output") "model-a-bnb4")
     = "output/model-a-bnb4"
  /\ last (sent Scenario.quiet_world Scenario.text_job) = Some Done
  /\ In (Progress 100 "") (sent Scenario.quiet_world Scenario.text_job)
  /\ In (Status "Завершено успешно") (sent Scenario.quiet_world Scenario.text_job).
Proof.
  split; [reflexivity |]. split; [reflexivity |]. split; [reflexivity |].
  split; vm_compute; tauto.
Qed.

(** Trailing slashes do not count, and a URL of slashes only has the
    empty name. *)
Example trailing_slashes :
  last (repo_segments "https://huggingface.co/org/model-a//") = Some "model-a"
  /\ last (repo_segments "//") = Some "".
Proof. split; reflexivity. Qed.

End Output.
